(** * Tektronix TDS 224 driver (instruments/tektronix/tektds224.py)

    A shallow embedding of the driver and of the parts of the Python run
    time it relies on, followed by the properties of the driver.

    Layout:
    - [PyStr]    : the [str] methods and [int()] used by the driver;
    - [Float64]  : Python [float] (IEEE 754 binary64), [float()] and
                   the [.1E] format;
    - [Scpi]     : the transport link and a simulated instrument;
    - [Tek]      : the driver classes themselves;
    - the theorems. *)

From Stdlib Require Import String Ascii List ZArith Lia Bool.
From Stdlib Require Import DecimalString DecimalZ DecimalPos SpecFloat.
Import ListNotations.

Local Open Scope string_scope.
Local Open Scope Z_scope.

(* ===================================================================== *)
(** * Python strings and integers *)
(* ===================================================================== *)

Module PyStr.

(** [str.isspace] on one character below U+0100, which is also what
    [int()] and [float()] pass over at either end: TAB, LF, VT, FF, CR
    (9 to 13), the four separators FS, GS, RS, US (28 to 31), the space
    (32), NEL (133) and the no-break space (160). *)
Definition is_space (c : ascii) : bool :=
  let n := nat_of_ascii c in
  ((Nat.leb 9 n && Nat.leb n 13) || (Nat.leb 28 n && Nat.leb n 32)
   || Nat.eqb n 133 || Nat.eqb n 160)%bool.

Definition is_digit (c : ascii) : bool :=
  let n := nat_of_ascii c in (Nat.leb 48 n && Nat.leb n 57)%bool.

Definition digit_val (c : ascii) : Z := Z.of_nat (nat_of_ascii c) - 48.

Fixpoint lstrip (s : string) : string :=
  match s with
  | String c s' => if is_space c then lstrip s' else s
  | EmptyString => EmptyString
  end.

(** [rstrip] keeps a character when it is not blank or when something
    that is kept follows it. *)
Fixpoint rstrip (s : string) : string :=
  match s with
  | EmptyString => EmptyString
  | String c s' =>
      match rstrip s' with
      | EmptyString => if is_space c then EmptyString else String c EmptyString
      | r => String c r
      end
  end.

Definition strip (s : string) : string := rstrip (lstrip s).

(** [s[n:]] *)
Fixpoint drop (n : nat) (s : string) : string :=
  match n, s with
  | O, _ => s
  | S k, String _ s' => drop k s'
  | S _, EmptyString => EmptyString
  end.

(** [s[:n]] *)
Fixpoint take (n : nat) (s : string) : string :=
  match n, s with
  | S k, String c s' => String c (take k s')
  | _, _ => EmptyString
  end.

(** [s.startswith(p)] *)
Definition startswith (p s : string) : bool := String.prefix p s.

(** [s.split(sep)] for a one-character separator: the fields between the
    separators, in order; never the empty list. *)
Fixpoint split (sep : ascii) (s : string) : list string :=
  match s with
  | EmptyString => [EmptyString]
  | String c s' =>
      if Ascii.eqb c sep then EmptyString :: split sep s'
      else match split sep s' with
           | f :: fs => String c f :: fs
           | [] => [String c EmptyString]
           end
  end.

(** [sep.join(fields)] *)
Definition join (sep : string) (fields : list string) : string :=
  String.concat sep fields.

(** [s.replace(old, new)] for a non-empty [old]: every occurrence, left to
    right, without overlap.  [skip] counts the characters of an occurrence
    still to be passed over. *)
Fixpoint replace_from (old new s : string) (skip : nat) : string :=
  match s with
  | EmptyString => EmptyString
  | String c s' =>
      match skip with
      | S k => replace_from old new s' k
      | O =>
          if String.prefix old s
          then new ++ replace_from old new s' (String.length old - 1)
          else String c (replace_from old new s' 0)
      end
  end.

Definition replace (old new s : string) : string := replace_from old new s 0.

(** ["{}".format(n)] for an [int]: decimal digits, a minus sign when
    negative. *)
Definition str_of_int (z : Z) : string := NilZero.string_of_int (Z.to_int z).

(** Digit grouping in numeric text: an underscore is accepted where a
    digit stands right before it and a digit right after it, and is then
    dropped; anywhere else it makes the text invalid ([None]).
    [prev_digit] tells whether the character before [s] is a digit. *)
Fixpoint ungroup_from (prev_digit : bool) (s : string) : option string :=
  match s with
  | EmptyString => Some EmptyString
  | String c s' =>
      if Ascii.eqb c "_" then
        if prev_digit then
          match s' with
          | String d _ => if is_digit d then ungroup_from false s' else None
          | EmptyString => None
          end
        else None
      else option_map (String c) (ungroup_from (is_digit c) s')
  end.

Definition ungroup (s : string) : option string := ungroup_from false s.

(** A non-empty run of decimal digits. *)
Definition int_of_digits (s : string) : option Z :=
  match s with
  | EmptyString => None
  | _ => option_map Z.of_uint (NilEmpty.uint_of_string s)
  end.

(** [int(s)] for a [str]: blanks around, an optional sign, at least one
    decimal digit, single underscores between digits.  [None] stands for
    [ValueError]. *)
Definition py_int (s : string) : option Z :=
  match ungroup (strip s) with
  | Some (String "-" ds) => option_map Z.opp (int_of_digits ds)
  | Some (String "+" ds) => int_of_digits ds
  | Some ds => int_of_digits ds
  | None => None
  end.

End PyStr.

Import PyStr.

(* ===================================================================== *)
(** * Python floats *)
(* ===================================================================== *)

(** A Python [float] is an IEEE 754 binary64 number; numpy's [float64]
    is the same format.  The arithmetic is the Standard Library's
    executable specification, instantiated at 53 bits of precision and a
    maximal exponent of 1024 (round to nearest, ties to even). *)
Module Float64.

Definition prec : Z := 53.
Definition emax : Z := 1024.

Definition float : Type := spec_float.

Definition add : float -> float -> float := SFadd prec emax.
Definition sub : float -> float -> float := SFsub prec emax.
Definition mul : float -> float -> float := SFmul prec emax.

(** Conversion of an integer, as numpy does when an integer array meets a
    float operand and as [np.arange] does for its indices. *)
Definition of_Z (z : Z) : float := binary_normalize prec emax z 0 false.

(** The integer a finite float denotes exactly, when it denotes one. *)
Definition to_Z_exact (x : float) : option Z :=
  match x with
  | S754_zero _ => Some 0
  | S754_finite s m e =>
      if 0 <=? e then Some (cond_Zopp s (Zpos m * 2 ^ e))
      else if Zpos m mod 2 ^ (- e) =? 0
           then Some (cond_Zopp s (Zpos m / 2 ^ (- e)))
           else None
  | _ => None
  end.

(** Ceiling of a finite float; [None] for NaN and the infinities. *)
Definition ceil (x : float) : option Z :=
  match x with
  | S754_zero _ => Some 0
  | S754_finite s m e =>
      if 0 <=? e then Some (cond_Zopp s (Zpos m * 2 ^ e))
      else Some (- (cond_Zopp (negb s) (Zpos m) / 2 ^ (- e)))
  | _ => None
  end.

(** ** [float(s)] for a [str] *)

(** The decimal number [m * 10^e], correctly rounded.  For a negative
    [e] the quotient is computed with at least 64 significant bits and a
    sticky bit for the remainder, which rounds as the exact value does. *)
Definition of_decimal (neg : bool) (m e : Z) : float :=
  if m <=? 0 then S754_zero neg
  else if 0 <=? e then binary_round prec emax neg (Z.to_pos (m * 10 ^ e)) 0
  else
    let d := 10 ^ (- e) in
    let s := Z.max 0 (65 + Z.log2 d - Z.log2 m) in
    let n := m * 2 ^ s in
    let sticky := if n mod d =? 0 then 0 else 1 in
    binary_round prec emax neg (Z.to_pos (2 * (n / d) + sticky)) (- s - 1).

(** The leading decimal digits of [s]: their value on top of [acc], how
    many there are on top of [n], and what follows them. *)
Fixpoint digits (s : string) (acc : Z) (n : nat) : Z * nat * string :=
  match s with
  | String c s' =>
      if is_digit c then digits s' (10 * acc + digit_val c) (S n)
      else (acc, n, s)
  | EmptyString => (acc, n, EmptyString)
  end.

Definition lower (c : ascii) : ascii :=
  let n := nat_of_ascii c in
  if (Nat.leb 65 n && Nat.leb n 90)%bool then ascii_of_nat (n + 32) else c.

Fixpoint lowercase (s : string) : string :=
  match s with
  | String c s' => String (lower c) (lowercase s')
  | EmptyString => EmptyString
  end.

(** The exponent part: empty, or [e] or [E], an optional sign and at least
    one digit, with nothing after it. *)
Definition exponent (s : string) : option Z :=
  match s with
  | EmptyString => Some 0
  | String c s' =>
      if Ascii.eqb (lower c) "e" then
        let '(neg, ds) :=
          match s' with
          | String "-" t => (true, t)
          | String "+" t => (false, t)
          | _ => (false, s')
          end in
        match digits ds 0 0 with
        | (v, S _, EmptyString) => Some (if neg then - v else v)
        | _ => None
        end
      else None
  end.

(** An unsigned decimal literal: digits, an optional point and fraction
    (one of the two digit runs may be empty), an optional exponent. *)
Definition unsigned_literal (neg : bool) (s : string) : option float :=
  let '(ip, ni, r1) := digits s 0 0 in
  let '(m, nf, r2) :=
    match r1 with
    | String "." t => let '(v, k, r) := digits t ip 0 in (v, k, r)
    | _ => (ip, O, r1)
    end in
  match (ni + nf)%nat with
  | O => None
  | S _ =>
      match exponent r2 with
      | Some e => Some (of_decimal neg m (e - Z.of_nat nf))
      | None => None
      end
  end.

(** [float(s)]: blanks around, single underscores between digits, an
    optional sign, then [inf], [infinity], [nan] in any case or a decimal
    literal.  [None] stands for [ValueError]. *)
Definition py_float (s : string) : option float :=
  match ungroup (strip s) with
  | None => None
  | Some text =>
      let '(neg, body) :=
        match text with
        | String "-" t => (true, t)
        | String "+" t => (false, t)
        | t => (false, t)
        end in
      let l := lowercase body in
      if (String.eqb l "inf" || String.eqb l "infinity")%bool
      then Some (S754_infinity neg)
      else if String.eqb l "nan" then Some S754_nan
      else unsigned_literal neg body
  end.

(** ** ["{:.1E}".format(x)] *)

(** The decimal exponent [k] of the positive rational [num/den]:
    [10^k <= num/den < 10^(k+1)].  Upwards there are no more steps than
    [num] has bits, downwards no more than [den] has. *)
Fixpoint exp10_up (fuel : nat) (num den k : Z) : Z :=
  match fuel with
  | O => k
  | S f => if den * 10 ^ (k + 1) <=? num then exp10_up f num den (k + 1) else k
  end.

Fixpoint exp10_down (fuel : nat) (num den j : Z) : Z :=
  match fuel with
  | O => j
  | S f => if den <=? num * 10 ^ j then j else exp10_down f num den (j + 1)
  end.

Definition exp10 (num den : Z) : Z :=
  if den <=? num then exp10_up (S (Z.to_nat (Z.log2 num))) num den 0
  else - exp10_down (S (Z.to_nat (Z.log2 den))) num den 1.

(** [num/den] rounded to an integer, ties to even. *)
Definition round_half_even (num den : Z) : Z :=
  let q := num / den in
  let r := num mod den in
  match 2 * r ?= den with
  | Lt => q
  | Gt => q + 1
  | Eq => if Z.even q then q else q + 1
  end.

Definition digit_char (d : Z) : ascii := ascii_of_N (Z.to_N (48 + d)).

(** Two significant digits [d1 d2] and the exponent [k] of the positive
    rational [num/den], i.e. [d1.d2 * 10^k]. *)
Definition sci2 (num den : Z) : Z * Z :=
  let k := exp10 num den in
  let d :=
    if 1 <=? k then round_half_even num (den * 10 ^ (k - 1))
    else round_half_even (num * 10 ^ (1 - k)) den in
  if d =? 100 then (10, k + 1) else (d, k).

(** The exponent field: a sign and at least two digits. *)
Definition exp_field (k : Z) : string :=
  let a := Z.abs k in
  String (if k <? 0 then "-"%char else "+"%char)
         (if a <? 10 then String "0" (str_of_int a) else str_of_int a).

Definition mantissa_field (d : Z) : string :=
  String (digit_char (d / 10))
    (String "."%char (String (digit_char (d mod 10)) EmptyString)).

Definition sign_field (neg : bool) : string := if neg then "-" else "".

Definition format_1E (x : float) : string :=
  match x with
  | S754_nan => "NAN"
  | S754_infinity s => sign_field s ++ "INF"
  | S754_zero s => sign_field s ++ "0.0E+00"
  | S754_finite s m e =>
      let '(d, k) :=
        if 0 <=? e then sci2 (Zpos m * 2 ^ e) 1
        else sci2 (Zpos m) (2 ^ (- e)) in
      sign_field s ++ mantissa_field d ++ "E" ++ exp_field k
  end.

End Float64.

(* ===================================================================== *)
(** * The transport link and the instrument behind it *)
(* ===================================================================== *)

Module Scpi.

(** The Python exceptions the driver raises or lets through. *)
Inductive exn : Type :=
  | TypeError | ValueError | IndexError | IOError | NotImplementedError.

Inductive result (A : Type) : Type :=
  | Ok (a : A)
  | Raise (e : exn).
Arguments Ok {A} a.
Arguments Raise {A} e.

(** The message terminator of the link. *)
Definition LF : string := String "010"%char EmptyString.

(** ** A simulated instrument

    Modelled from the spec: the instrument at the far end of the link is
    not part of the driver.  Following the wire protocol table, it keeps
    one text value per command header: ["<header> <value>"] stores the
    value, ["<header>?"] sends it back as one message, and a header it
    holds no value for is left unanswered.  ["CURVE?"] sends the record of
    the selected data source in the selected encoding: a comma-separated
    line, or a binary block with the terminator behind it. *)
Record Device : Type := {
  regs : string -> option string;
  waveform : string -> list Z
}.

Definition set_reg (h v : string) (d : Device) : Device :=
  {| regs := fun k => if String.eqb k h then Some v else regs d k;
     waveform := waveform d |}.

(** Big-endian two's complement on [w] bytes. *)
Fixpoint be_bytes (w : nat) (u : Z) : string :=
  match w with
  | O => EmptyString
  | S k => String (ascii_of_N (Z.to_N ((u / 256 ^ Z.of_nat k) mod 256)))
                  (be_bytes k u)
  end.

Fixpoint concat_map {A} (f : A -> string) (l : list A) : string :=
  match l with
  | [] => EmptyString
  | a :: l' => f a ++ concat_map f l'
  end.

(** The definite-length block [#<d><length><bytes>]: [d] is the single
    digit that counts the digits of the byte length. *)
Definition binary_block (data : string) : string :=
  let len := str_of_int (Z.of_nat (String.length data)) in
  String "#" (str_of_int (Z.of_nat (String.length len)) ++ len ++ data).

(** The sample width the instrument holds: 1 or 2 bytes. *)
Definition device_width (d : Device) : option nat :=
  match regs d "DATA:WIDTH" with
  | Some t =>
      match py_int t with
      | Some w => if ((w =? 1) || (w =? 2))%bool then Some (Z.to_nat w) else None
      | None => None
      end
  | None => None
  end.

Definition curve_reply (d : Device) : list string :=
  match regs d "DAT:SOU", regs d "DAT:ENC" with
  | Some src, Some enc =>
      if String.eqb enc "ASCI" then
        [join "," (map str_of_int (waveform d src))]
      else if String.eqb enc "RIB" then
        match device_width d with
        | Some w =>
            let data := concat_map (be_bytes w) (waveform d src) in
            if (String.length (str_of_int (Z.of_nat (String.length data)))
                <=? 9)%nat
            then [binary_block data ++ LF]
            else []
        | None => []
        end
      else []
  | _, _ => []
  end.

(** How the instrument reads a command line: ["<header> <value>"] splits
    at the first blank, ["<header>?"] ends in a question mark. *)
Fixpoint split_header (s : string) : string * option string :=
  match s with
  | EmptyString => (EmptyString, None)
  | String c s' =>
      if Ascii.eqb c " " then (EmptyString, Some s')
      else let '(h, v) := split_header s' in (String c h, v)
  end.

Fixpoint query_header (s : string) : option string :=
  match s with
  | EmptyString => None
  | String c EmptyString =>
      if Ascii.eqb c "?" then Some EmptyString else None
  | String c s' => option_map (String c) (query_header s')
  end.

(** The instrument's reaction to one command line: its next state and the
    messages it sends back. *)
Definition react (cmd : string) (d : Device) : Device * list string :=
  if String.eqb cmd "CURVE?" then (d, curve_reply d)
  else
    match split_header cmd with
    | (h, Some v) => (set_reg h v d, [])
    | (_, None) =>
        match query_header cmd with
        | Some h =>
            (d, match regs d h with
                | Some v => [v]
                | None => []
                end)
        | None => (d, [])
        end
    end.

(** ** The link

    Modelled from the spec: the transport link of section 2, with
    [send(string)], [query(string) -> string] and
    [read_binary_block(width) -> bytes].  The state is the instrument, the
    messages received and not yet read, and every command written so far,
    oldest first. *)
Record Link : Type := {
  device : Device;
  inbuf : list string;
  sent : list string
}.

(** What was written between two states of the link. *)
Definition wrote (lk lk' : Link) (cmds : list string) : Prop :=
  sent lk' = (sent lk ++ cmds)%list.

(** A driver operation runs on the link and ends with a value or a raised
    exception; what it wrote before raising stays written. *)
Definition M (A : Type) : Type := Link -> result A * Link.

Definition ret {A} (a : A) : M A := fun lk => (Ok a, lk).
Definition raise {A} (e : exn) : M A := fun lk => (Raise e, lk).
Definition bind {A B} (c : M A) (k : A -> M B) : M B :=
  fun lk =>
    match c lk with
    | (Ok a, lk') => k a lk'
    | (Raise e, lk') => (Raise e, lk')
    end.

Declare Scope link_scope.
Delimit Scope link_scope with link.
Notation "x <- c ;; k" := (bind c (fun x => k))
  (at level 61, c at next level, right associativity) : link_scope.
Notation "c ;; k" := (bind c (fun _ => k))
  (at level 61, right associativity) : link_scope.
Local Open Scope link_scope.

(** A conversion that raises [ValueError] when it fails. *)
Definition convert {A} (o : option A) : M A :=
  match o with
  | Some a => ret a
  | None => raise ValueError
  end.

Definition sendcmd (cmd : string) : M unit :=
  fun lk =>
    let '(d, out) := react cmd (device lk) in
    (Ok tt, {| device := d; inbuf := inbuf lk ++ out;
               sent := sent lk ++ [cmd] |}).

(** Reading a reply: the oldest pending message; with none pending the
    read times out. *)
Definition read_line : M string :=
  fun lk =>
    match inbuf lk with
    | msg :: rest =>
        (Ok msg, {| device := device lk; inbuf := rest; sent := sent lk |})
    | [] => (Raise IOError, lk)
    end.

Definition query (cmd : string) : M string :=
  sendcmd cmd ;; read_line.

(** At most [n] bytes of the oldest pending message; the bytes after them
    stay pending. *)
Definition read_raw (n : nat) : M string :=
  fun lk =>
    match inbuf lk with
    | msg :: rest =>
        (Ok (take n msg),
         {| device := device lk; inbuf := drop n msg :: rest;
            sent := sent lk |})
    | [] => (Ok EmptyString, lk)
    end.

Definition flush_input : M unit :=
  fun lk => (Ok tt, {| device := device lk; inbuf := []; sent := sent lk |}).

(** ** Binary blocks *)

Definition byte_val (c : ascii) : Z := Z.of_N (N_of_ascii c).

Fixpoint be_unsigned (s : string) (acc : Z) : Z :=
  match s with
  | EmptyString => acc
  | String c s' => be_unsigned s' (256 * acc + byte_val c)
  end.

Definition be_signed (s : string) : Z :=
  let u := be_unsigned s 0 in
  let m := 256 ^ Z.of_nat (String.length s) in
  if 2 * u <? m then u else u - m.

Fixpoint chunks (fuel w : nat) (s : string) : list string :=
  match fuel with
  | O => []
  | S f =>
      match s with
      | EmptyString => []
      | _ => take w s :: chunks f w (drop w s)
      end
  end.

(** [np.frombuffer(data, dtype)] for the signed big-endian integers of [w]
    bytes: the buffer has to hold a whole number of them. *)
Definition frombuffer (w : nat) (data : string) : M (list Z) :=
  match w with
  | O => raise ValueError
  | S _ =>
      if (Nat.eqb (String.length data mod w) 0)
      then ret (map be_signed (chunks (String.length data) w data))
      else raise ValueError
  end.

(** Modelled from the spec: [binblockread] of the instrument base class,
    which reads the length-prefixed binary block of section 4.1: the mark
    [#], one digit giving the number of length digits, the byte length,
    then that many bytes, decoded as signed big-endian samples of the given
    width. *)
Definition binblockread (data_width : Z) : M (list Z) :=
  symbol <- read_raw 1 ;;
  if negb (String.eqb symbol "#") then raise IOError
  else
    d <- read_raw 1 ;;
    digits <- convert (py_int d) ;;
    nb <- read_raw (Z.to_nat digits) ;;
    num_of_bytes <- convert (py_int nb) ;;
    data <- read_raw (Z.to_nat num_of_bytes) ;;
    if (String.length data <? Z.to_nat num_of_bytes)%nat then raise IOError
    else frombuffer (Z.to_nat data_width) data.

End Scpi.

(* ===================================================================== *)
(** * The driver *)
(* ===================================================================== *)

Module Tek.

Import Scpi.
Import Float64.
Local Open Scope link_scope.

(** ** Values of the libraries the driver uses *)

(** The units of the [quantities] package: [pq.V] is the volt, [pq.Hz]
    the hertz, [pq.s] the second; [pq.S], with a capital letter, is the
    siemens.  Every other unit of time ([pq.ms], [pq.us], [pq.ns],
    [pq.min], [pq.h], ...) is given by what the package holds for it,
    the number of seconds it is worth, a float. *)
Inductive pq_unit : Type :=
  | pq_V
  | pq_S
  | pq_s
  | pq_Hz
  | pq_time (seconds : float).

(** [pq.ms]: the package defines it as [s / 1000]. *)
Definition pq_ms : pq_unit := pq_time (of_decimal false 1 (-3)).

(** The same float, bit for bit. *)
Definition float_same (x y : float) : bool :=
  match x, y with
  | S754_zero s, S754_zero t => Bool.eqb s t
  | S754_infinity s, S754_infinity t => Bool.eqb s t
  | S754_nan, S754_nan => true
  | S754_finite s m e, S754_finite t n f =>
      Bool.eqb s t && Pos.eqb m n && Z.eqb e f
  | _, _ => false
  end.

Definition pq_unit_eqb (a b : pq_unit) : bool :=
  match a, b with
  | pq_V, pq_V | pq_S, pq_S | pq_s, pq_s | pq_Hz, pq_Hz => true
  | pq_time x, pq_time y => float_same x y
  | _, _ => false
  end.

(** A physical quantity: [magnitude * units]. *)
Record Quantity : Type := { magnitude : float; units : pq_unit }.

(** [q.rescale("s").magnitude]: a quantity in seconds is returned as it
    is; the magnitude of one in another unit of time is multiplied by the
    conversion factor, the seconds the unit is worth ([cf *
    self.magnitude]); a quantity that is not a time is refused with
    [ValueError]. *)
Definition rescale_s (q : Quantity) : M float :=
  match units q with
  | pq_s => ret (magnitude q)
  | pq_time cf => ret (mul cf (magnitude q))
  | _ => raise ValueError
  end.

(** The numpy arrays the driver meets: the integer samples of a binary
    block, arrays of floats, and the zero-dimensional object array that
    [np.array] makes of an iterator it is handed (here the iterator
    [map(float, tokens)], of which nothing has been consumed). *)
Inductive ndarray : Type :=
  | IntArray (l : list Z)
  | FloatArray (l : list float)
  | ObjectScalar (tokens : list string).

(** Arithmetic of an array with a Python float: element by element, the
    integers converted first; the object array hands the operation to the
    iterator it holds, which supports none ([TypeError]). *)
Definition nd_op (op : float -> float -> float) (a : ndarray) (x : float)
  : M ndarray :=
  match a with
  | IntArray l => ret (FloatArray (map (fun r => op (of_Z r) x) l))
  | FloatArray l => ret (FloatArray (map (fun r => op r x) l))
  | ObjectScalar _ => raise TypeError
  end.

(** The lengths numpy makes an array of [float64] of, on a machine with
    64-bit indices: the ceiling of [stop] has to be an index (from
    [-2^63], anything up to zero giving the empty array) and the eight
    bytes of each element have to add up to an index as well.  The
    float [2^63], which numpy's comparison lets through to a conversion
    the C language leaves undefined, counts as out of range.  What the
    machine has of memory is not part of the model. *)
Definition max_length : Z := (2 ^ 63 - 1) / 8.

Definition sizable (n : Z) : bool := (- 2 ^ 63 <=? n) && (n <=? max_length).

(** [np.arange(stop)] for a float: the floats [0.0, 1.0, ...] below [stop];
    numpy cannot size the array for NaN or an infinity, nor for a length
    out of the range above ([ValueError] each time). *)
Definition np_arange (stop : float) : M ndarray :=
  match ceil stop with
  | Some n =>
      if sizable n
      then ret (FloatArray (map (fun i => of_Z (Z.of_nat i))
                                (seq 0 (Z.to_nat n))))
      else raise ValueError
  | None => raise ValueError
  end.

(** ** Enumerations and tables of [TekTDS224] *)

Inductive Coupling : Type := ac | dc | ground.

Definition Coupling_value (c : Coupling) : string :=
  match c with
  | ac => "AC"
  | dc => "DC"
  | ground => "GND"
  end.

(** [TekTDS224.Coupling(text)]: the member with that value. *)
Definition Coupling_of_value (t : string) : option Coupling :=
  if String.eqb t "AC" then Some ac
  else if String.eqb t "DC" then Some dc
  else if String.eqb t "GND" then Some ground
  else None.

Definition MeasurementTypes : list (string * string) :=
  [("cyclic_rms", "CRM"); ("fall_time", "FAL");
   ("frequency", "FREQ"); ("maximum", "MAXI"); ("mean", "MEAN");
   ("minimum", "MINI"); ("negative_width", "NWI");
   ("none", "NON"); ("peak_peak", "PK2");
   ("period", "PERI"); ("positive_width", "PWI");
   ("rise_time", "RIS")].

Definition MeasurementUnits : list (string * pq_unit) :=
  [("cyclic_rms", pq_V); ("fall_time", pq_S);
   ("frequency", pq_Hz); ("maximum", pq_V); ("mean", pq_V);
   ("minimum", pq_V); ("negative_width", pq_S);
   ("peak_peak", pq_V);
   ("period", pq_S); ("positive_width", pq_S);
   ("rise_time", pq_S)].

(** [d[key]] of a dictionary, [None] when the key is absent. *)
Fixpoint lookup {A} (key : string) (d : list (string * A)) : option A :=
  match d with
  | [] => None
  | (k, v) :: d' => if String.eqb k key then Some v else lookup key d'
  end.

(** ** Objects *)

(** A data source is made by [_TekTDS224DataSource(tek, name)] or by
    [_TekTDS224Channel(tek, idx)]. *)
Inductive DataSource : Type :=
  | _TekTDS224DataSource (name : string)
  | _TekTDS224Channel (idx : Z).

(** [_idx] of a channel made with [idx]. *)
Definition _idx (idx : Z) : Z := idx + 1.

Definition name (self : DataSource) : string :=
  match self with
  | _TekTDS224DataSource n => n
  | _TekTDS224Channel idx => "CH" ++ str_of_int (idx + 1)
  end.

(** What a caller may hand to a setter: an [int], a [str] or a member of
    [Coupling]. *)
Inductive value : Type :=
  | VInt (z : Z)
  | VStr (s : string)
  | VCoupling (c : Coupling).

(** [int(v)] *)
Definition int_of_value (v : value) : M Z :=
  match v with
  | VInt z => ret z
  | VStr s => convert (py_int s)
  | VCoupling _ => raise TypeError
  end.

(** ["{}".format(v)] *)
Definition format_value (v : value) : string :=
  match v with
  | VInt z => str_of_int z
  | VStr s => s
  | VCoupling ac => "Coupling.ac"
  | VCoupling dc => "Coupling.dc"
  | VCoupling ground => "Coupling.ground"
  end.

(** ** [TekTDS224]: instrument-wide properties *)

(** [data_source] (getter) *)
Definition data_source : M DataSource :=
  name <- query "DAT:SOU?" ;;
  if startswith "CH" name then
    n <- convert (py_int (drop 2 name)) ;;
    ret (_TekTDS224Channel (n - 1))
  else ret (_TekTDS224DataSource name).

(** [data_source] (setter).  [newval] is a value or a data source object;
    an enumeration member is replaced by its value and a data source by
    its name.  The pause that follows the command outside of tests has no
    effect on the link. *)
Definition set_data_source (newval : value + DataSource) : M unit :=
  let newval :=
    match newval with
    | inl (VStr s) => VStr s
    | inl (VCoupling c) => VStr (Coupling_value c)
    | inl (VInt z) => VInt z
    | inr d => VStr (name d)
    end in
  sendcmd ("DAT:SOU " ++ format_value newval).

(** [data_width] (getter) *)
Definition data_width : M Z :=
  reply <- query "DATA:WIDTH?" ;;
  convert (py_int reply).

(** [data_width] (setter) *)
Definition set_data_width (newval : value) : M unit :=
  n <- int_of_value newval ;;
  if negb (existsb (Z.eqb n) [1; 2]) then raise ValueError
  else sendcmd ("DATA:WIDTH " ++ format_value newval).

(** [force_trigger] *)
Definition force_trigger : M unit := raise NotImplementedError.



(** [[key for key, value in d.items() if value == v]] *)
Definition keys_of (v : string) (d : list (string * string)) : list string :=
  map fst (filter (fun kv => String.eqb (snd kv) v) d).



(** [time_scale] (getter) *)
Definition time_scale : M Quantity :=
  response <- query "HORizontal:MAIn:SCAle?" ;;
  v <- convert (py_float response) ;;
  ret {| magnitude := v; units := pq_s |}.

(** [assume_units(value, units)]: a bare number is given the units, a
    quantity is kept. *)
Definition assume_units (new_val : float + Quantity) (u : pq_unit) : Quantity :=
  match new_val with
  | inl x => {| magnitude := x; units := u |}
  | inr q => q
  end.

(** [time_scale] (setter) *)
Definition set_time_scale (new_val : float + Quantity) : M unit :=
  val <- rescale_s (assume_units new_val pq_s) ;;
  let format_out := format_1E val in
  sendcmd ("HORizontal:MAIn:SCAle " ++ format_out).

(** ** [_TekTDS224Channel] *)

(** [coupling] (getter) of the channel made with [idx] *)
Definition coupling (idx : Z) : M Coupling :=
  reply <- query ("CH" ++ str_of_int (_idx idx) ++ ":COUPL?") ;;
  convert (Coupling_of_value reply).

(** [coupling] (setter): anything but a member of [Coupling] is refused. *)
Definition set_coupling (idx : Z) (newval : value) : M unit :=
  match newval with
  | VCoupling c =>
      sendcmd ("CH" ++ str_of_int (_idx idx) ++ ":COUPL " ++ Coupling_value c)
  | _ => raise TypeError
  end.

(** [measurement(measurement, units)] of the channel made with [idx] *)
Definition measurement (idx : Z) (measurement : string) (units : pq_unit)
  : M Quantity :=
  sendcmd ("MEASU:IMM:SOU " ++ str_of_int (_idx idx)) ;;
  sendcmd ("MEASU:IMM:TYP " ++ measurement) ;;
  response <- query "MEASU:IMM:VAL?" ;;
  v <- convert (py_float response) ;;
  ret {| magnitude := v; units := units |}.

(** [_set_measurements]: the attributes it sets on a channel, in the
    order of [MeasurementTypes]; each is [measurement] with the type code
    and the unit filled in. *)
Definition _set_measurements : list (string * (string * pq_unit)) :=
  flat_map
    (fun kv =>
       match lookup (fst kv) MeasurementUnits with
       | None => []
       | Some u => [(fst kv, (snd kv, u))]
       end)
    MeasurementTypes.

(** Calling the attribute [key] of the channel made with [idx], e.g.
    [channel.frequency()]; [None] when the channel has no such
    attribute. *)
Definition call_measurement (idx : Z) (key : string) : option (M Quantity) :=
  match lookup key _set_measurements with
  | Some (code, u) => Some (measurement idx code u)
  | None => None
  end.

(** ** [_TekTDS224DataSource] *)

(** Modelled from the spec: the context a data source enters for the
    duration of [read_waveform] (section 4.1, "scoped resource") belongs to
    the abstract data source class.  On entry it notes the source the
    instrument has selected and selects this one when it is another; on
    exit, also when the body raised, it selects the noted source again. *)
Definition enter (self : DataSource) : M (option DataSource) :=
  old <- data_source ;;
  if negb (String.eqb (name old) (name self)) then
    set_data_source (inr self) ;;
    ret (Some old)
  else ret None.

Definition leave (old : option DataSource) : M unit :=
  match old with
  | Some d => set_data_source (inr d)
  | None => ret tt
  end.

Definition with_source {A} (self : DataSource) (body : M A) : M A :=
  fun lk =>
    match enter self lk with
    | (Raise e, lk1) => (Raise e, lk1)
    | (Ok old, lk1) =>
        let '(r, lk2) := body lk1 in
        match leave old lk2 with
        | (Ok _, lk3) => (r, lk3)
        | (Raise e, lk3) => (Raise e, lk3)
        end
    end.

(** The transfer of the raw samples, lines 73 to 90. *)
Definition read_raw_samples (bin_format : bool) : M ndarray :=
  if negb bin_format then
    sendcmd "DAT:ENC ASCI" ;;
    raw <- query "CURVE?" ;;
    let raw := split "," raw in
    (* [map(float, raw)] is an iterator and [np.array] does not run it *)
    ret (ObjectScalar raw)
  else
    sendcmd "DAT:ENC RIB" ;;
    data_width <- data_width ;;
    sendcmd "CURVE?" ;;
    raw <- binblockread data_width ;;
    flush_input ;;
    ret (IntArray raw).

(** The body of the [with] statement of [read_waveform]. *)
Definition read_waveform_body (self : DataSource) (bin_format : bool)
  : M (ndarray * ndarray) :=
  raw <- read_raw_samples bin_format ;;
  yoffs <- query ("WFMP:" ++ name self ++ ":YOF?") ;;
  ymult <- query ("WFMP:" ++ name self ++ ":YMU?") ;;
  yzero <- query ("WFMP:" ++ name self ++ ":YZE?") ;;
  o <- convert (py_float yoffs) ;;
  y <- nd_op sub raw o ;;
  m <- convert (py_float ymult) ;;
  y <- nd_op mul y m ;;
  z <- convert (py_float yzero) ;;
  y <- nd_op add y z ;;
  xzero <- query "WFMP:XZE?" ;;
  xincr <- query "WFMP:XIN?" ;;
  ptcnt <- query ("WFMP:" ++ name self ++ ":NR_P?") ;;
  n <- convert (py_float ptcnt) ;;
  x <- np_arange n ;;
  dx <- convert (py_float xincr) ;;
  x <- nd_op mul x dx ;;
  x0 <- convert (py_float xzero) ;;
  x <- nd_op add x x0 ;;
  ret (x, y).

(** [read_waveform(bin_format)] *)
Definition read_waveform (self : DataSource) (bin_format : bool)
  : M (ndarray * ndarray) :=
  with_source self (read_waveform_body self bin_format).

End Tek.

(* ===================================================================== *)
(** * Properties *)
(* ===================================================================== *)

Import Float64 Scpi Tek.
Local Open Scope link_scope.

(** ** Text of integers *)

Section IntegerText.

Fixpoint all_chars (p : ascii -> bool) (s : string) : bool :=
  match s with
  | EmptyString => true
  | String c s' => p c && all_chars p s'
  end.

Definition not_blank (c : ascii) : bool := negb (Ascii.eqb c " ").

Definition sign_or_digit (c : ascii) : bool :=
  Ascii.eqb c "-" || is_digit c.

Lemma all_chars_app p a b :
  all_chars p (a ++ b) = all_chars p a && all_chars p b.
Proof.
  induction a as [|c a IH]; simpl; [reflexivity|].
  now rewrite IH, andb_assoc.
Qed.

Lemma all_chars_weaken (p q : ascii -> bool) s :
  (forall c, p c = true -> q c = true) ->
  all_chars p s = true -> all_chars q s = true.
Proof.
  intros Hpq; induction s as [|c s IH]; simpl; [easy|].
  rewrite !andb_true_iff; intros [Hc Hs]; auto.
Qed.

Lemma uint_text_digits d :
  all_chars is_digit (NilEmpty.string_of_uint d) = true.
Proof. induction d; simpl; auto. Qed.

Lemma str_of_int_chars z : all_chars sign_or_digit (str_of_int z) = true.
Proof.
  assert (D : forall d, all_chars sign_or_digit (NilZero.string_of_uint d) = true).
  { intros d. apply all_chars_weaken with (p := is_digit).
    - intros c Hc; unfold sign_or_digit; now rewrite Hc, orb_true_r.
    - destruct d; try reflexivity; exact (uint_text_digits _). }
  unfold str_of_int; destruct (Z.to_int z) as [d|d]; simpl.
  - apply D.
  - apply D.
Qed.

Lemma str_of_int_not_blank z : all_chars not_blank (str_of_int z) = true.
Proof.
  apply all_chars_weaken with (p := sign_or_digit); [|apply str_of_int_chars].
  intros c; unfold sign_or_digit, not_blank, is_digit.
  destruct (Ascii.eqb_spec c " ") as [->|]; [discriminate|reflexivity].
Qed.

(** Digits may be grouped with single underscores, and the blanks passed
    over at either end include the no-break space and NEL. *)
Lemma grouped_digits :
  map py_int ["1_0"; "0_1"; "-1_000"; "1__0"; "_1"; "1_"; "+_1"; "1 0"]
    = [Some 10; Some 1; Some (-1000); None; None; None; None; None] /\
  map py_float ["1_0"; "1_0.2_5"; "1e1_0"; "1_.5"; "1._5"; "1_e5"; "in_f"]
    = [Some (of_Z 10); Some (of_decimal false 1025 (-2));
       Some (of_decimal false 1 10); None; None; None; None] /\
  py_int (String (ascii_of_nat 160) ("12" ++ String (ascii_of_nat 133) ""))
    = Some 12 /\
  py_float (String (ascii_of_nat 28) ("1.5" ++ String (ascii_of_nat 160) ""))
    = Some (of_decimal false 15 (-1)).
Proof. repeat split; vm_compute; reflexivity. Qed.

End IntegerText.

(** ** The instrument's reading of the driver's commands *)

Section Commands.

Lemma split_header_blank a b :
  all_chars not_blank a = true ->
  split_header (a ++ String " " b) = (a, Some b).
Proof.
  induction a as [|c a IH]; simpl; [reflexivity|].
  rewrite andb_true_iff; intros [Hc Ha].
  unfold not_blank in Hc; apply negb_true_iff in Hc; rewrite Hc.
  now rewrite (IH Ha).
Qed.

Lemma split_header_none a :
  all_chars not_blank a = true -> split_header a = (a, None).
Proof.
  induction a as [|c a IH]; simpl; [reflexivity|].
  rewrite andb_true_iff; intros [Hc Ha].
  unfold not_blank in Hc; apply negb_true_iff in Hc; rewrite Hc.
  now rewrite (IH Ha).
Qed.

Lemma query_header_mark h : query_header (h ++ "?") = Some h.
Proof.
  induction h as [|c h IH]; [reflexivity|].
  change (String c h ++ "?") with (String c (h ++ "?")).
  cbn [query_header]. rewrite IH.
  destruct (h ++ "?") eqn:E; [now destruct h|reflexivity].
Qed.

(** A query the instrument holds a value for is answered with it. *)
Lemma query_answered cmd h v lk :
  String.eqb cmd "CURVE?" = false ->
  snd (split_header cmd) = None ->
  query_header cmd = Some h ->
  regs (device lk) h = Some v ->
  inbuf lk = [] ->
  query cmd lk =
    (Ok v, {| device := device lk; inbuf := []; sent := sent lk ++ [cmd] |}).
Proof.
  intros Hc Hs Hq Hr Hi.
  unfold query, bind, sendcmd, read_line, react.
  rewrite Hc. destruct (split_header cmd) as [h' [v'|]]; [discriminate|].
  rewrite Hq, Hr, Hi. reflexivity.
Qed.

(** A command that sets a value is stored and left unanswered. *)
Lemma sendcmd_stored h v lk :
  String.eqb (h ++ String " " v) "CURVE?" = false ->
  all_chars not_blank h = true ->
  sendcmd (h ++ String " " v) lk =
    (Ok tt, {| device := set_reg h v (device lk); inbuf := inbuf lk;
               sent := sent lk ++ [h ++ String " " v] |}).
Proof.
  intros Hc Hh. unfold sendcmd, react.
  rewrite Hc, (split_header_blank _ _ Hh). cbn.
  now rewrite app_nil_r.
Qed.

End Commands.

(** ** Data width *)

Section DataWidth.

(** C5.  Setting [data_width] to 1 or 2 writes [DATA:WIDTH <n>], after which
    the getter reads the same value back from the instrument; setting
    any other integer raises [ValueError] and leaves the link, with the
    instrument behind it, as it was: no command is written. *)
Theorem data_width_round_trip (lk : Link) (n : Z) :
  inbuf lk = [] ->
  (n = 1 \/ n = 2 ->
     exists lk1,
       set_data_width (VInt n) lk = (Ok tt, lk1) /\
       wrote lk lk1 ["DATA:WIDTH " ++ str_of_int n] /\
       fst (data_width lk1) = Ok n) /\
  (n <> 1 -> n <> 2 ->
     set_data_width (VInt n) lk = (Raise ValueError, lk)).
Proof.
  intros Hi; split.
  - intros Hn.
    assert (E : set_data_width (VInt n) lk =
                sendcmd ("DATA:WIDTH " ++ str_of_int n) lk)
      by (destruct Hn; subst n; reflexivity).
    rewrite E.
    change ("DATA:WIDTH " ++ str_of_int n)
      with ("DATA:WIDTH" ++ String " " (str_of_int n)).
    rewrite sendcmd_stored by reflexivity.
    eexists; split; [reflexivity|]. split; [reflexivity|].
    unfold data_width, bind.
    erewrite query_answered;
      [ | reflexivity | reflexivity | reflexivity | reflexivity | exact Hi ].
    destruct Hn; subst n; reflexivity.
  - intros H1 H2. unfold set_data_width, bind, int_of_value, ret; cbn.
    destruct (Z.eqb_spec n 1); [contradiction|].
    destruct (Z.eqb_spec n 2); [contradiction|].
    reflexivity.
Qed.

Lemma data_width_round_trip_witness :
  exists lk1,
    set_data_width (VInt 2)
      {| device := {| regs := fun _ => None; waveform := fun _ => [] |};
         inbuf := []; sent := [] |} = (Ok tt, lk1) /\
    sent lk1 = ["DATA:WIDTH 2"] /\
    fst (data_width lk1) = Ok 2.
Proof.
  apply (data_width_round_trip
           {| device := {| regs := fun _ => None; waveform := fun _ => [] |};
              inbuf := []; sent := [] |} 2).
  - reflexivity.
  - right; reflexivity.
Defined.

End DataWidth.

(** ** Coupling *)

Section CouplingSetting.

Lemma Coupling_round_trip c : Coupling_of_value (Coupling_value c) = Some c.
Proof. destruct c; reflexivity. Qed.

Lemma coupling_header_not_blank idx :
  all_chars not_blank ("CH" ++ str_of_int (_idx idx) ++ ":COUPL") = true.
Proof.
  change (all_chars not_blank (str_of_int (_idx idx) ++ ":COUPL") = true).
  now rewrite all_chars_app, str_of_int_not_blank.
Qed.

Lemma app_assoc_text a b c : (a ++ b) ++ c = a ++ b ++ c.
Proof. induction a as [|x a IH]; simpl; [reflexivity|now rewrite IH]. Qed.

(** C6.  Setting the coupling of a channel to a member of [Coupling] writes
    [CH<n>:COUPL <value>], after which the getter reads the same member
    back from the instrument; setting anything that is not a member
    raises [TypeError] and leaves the link as it was: no command is
    written. *)
Theorem coupling_round_trip (lk : Link) (idx : Z) :
  inbuf lk = [] ->
  (forall c : Coupling,
     exists lk1,
       set_coupling idx (VCoupling c) lk = (Ok tt, lk1) /\
       wrote lk lk1
         ["CH" ++ str_of_int (idx + 1) ++ ":COUPL " ++ Coupling_value c] /\
       fst (coupling idx lk1) = Ok c) /\
  (forall v : value,
     (forall c, v <> VCoupling c) ->
     set_coupling idx v lk = (Raise TypeError, lk)).
Proof.
  intros Hi; split.
  - intros c.
    set (h := "CH" ++ str_of_int (_idx idx) ++ ":COUPL").
    assert (Ecmd : "CH" ++ str_of_int (_idx idx) ++ ":COUPL " ++ Coupling_value c
                   = h ++ String " " (Coupling_value c)).
    { unfold h. cbn [append]. f_equal. f_equal.
      now rewrite (app_assoc_text _ ":COUPL" (String " " _)). }
    assert (Eq : "CH" ++ str_of_int (_idx idx) ++ ":COUPL?" = h ++ "?").
    { unfold h. cbn [append]. f_equal. f_equal.
      now rewrite (app_assoc_text _ ":COUPL" "?"). }
    exists {| device := set_reg h (Coupling_value c) (device lk);
              inbuf := inbuf lk;
              sent := sent lk ++ [h ++ String " " (Coupling_value c)] |}.
    split; [|split].
    + unfold set_coupling. rewrite Ecmd.
      apply sendcmd_stored; [reflexivity|apply coupling_header_not_blank].
    + unfold wrote. cbn [sent]. unfold _idx in Ecmd. now rewrite Ecmd.
    + unfold coupling, bind. rewrite Eq.
      erewrite query_answered with (h := h) (v := Coupling_value c).
      * cbn. now rewrite Coupling_round_trip.
      * reflexivity.
      * rewrite split_header_none; [reflexivity|].
        rewrite all_chars_app. unfold h.
        now rewrite coupling_header_not_blank.
      * apply query_header_mark.
      * cbn. now rewrite String.eqb_refl.
      * exact Hi.
  - intros v Hv. destruct v as [z|s|c]; try reflexivity.
    now destruct (Hv c).
Qed.

Lemma coupling_round_trip_witness :
  exists lk1,
    set_coupling 0 (VCoupling ground)
      {| device := {| regs := fun _ => None; waveform := fun _ => [] |};
         inbuf := []; sent := [] |} = (Ok tt, lk1) /\
    sent lk1 = ["CH1:COUPL GND"] /\
    fst (coupling 0 lk1) = Ok ground.
Proof.
  apply (proj1 (coupling_round_trip
           {| device := {| regs := fun _ => None; waveform := fun _ => [] |};
              inbuf := []; sent := [] |} 0 eq_refl) ground).
Defined.

End CouplingSetting.

(** ** The selected data source *)

Section DataSourceGetter.


Lemma data_source_run lk reply :
  inbuf lk = [] ->
  regs (device lk) "DAT:SOU" = Some reply ->
  data_source lk =
    (if startswith "CH" reply then
       match py_int (drop 2 reply) with
       | Some n => Ok (_TekTDS224Channel (n - 1))
       | None => Raise ValueError
       end
     else Ok (_TekTDS224DataSource reply),
     {| device := device lk; inbuf := []; sent := sent lk ++ ["DAT:SOU?"] |}).
Proof.
  intros Hi Hr. unfold data_source, bind.
  rewrite (query_answered "DAT:SOU?" "DAT:SOU" reply lk)
    by (reflexivity || assumption).
  destruct (startswith "CH" reply); [|reflexivity].
  destruct (py_int (drop 2 reply)); reflexivity.
Qed.




End DataSourceGetter.

(** ** Channel measurements *)

Section ChannelMeasurement.

(** A link with nothing pending whose instrument answers
    [MEASU:IMM:VAL?] with [reply]. *)
Definition measuring (reply : string) : Link :=
  {| device := {| regs := fun h => if String.eqb h "MEASU:IMM:VAL"
                                   then Some reply else None;
                  waveform := fun _ => [] |};
     inbuf := []; sent := [] |}.


Lemma lookup_In {A} key (d : list (string * A)) v :
  lookup key d = Some v -> In (key, v) d.
Proof.
  induction d as [|[k x] d IH]; simpl; [discriminate|].
  destruct (String.eqb_spec k key) as [->|_].
  - intros [= ->]. now left.
  - intros H. right. auto.
Qed.

(** The attributes [_set_measurements] gives a channel number eleven:
    every measurement type but [none]. *)
Lemma set_measurements_names :
  map fst _set_measurements =
    ["cyclic_rms"; "fall_time"; "frequency"; "maximum"; "mean"; "minimum";
     "negative_width"; "peak_peak"; "period"; "positive_width"; "rise_time"].
Proof. reflexivity. Qed.


(** C7.  The attribute [fall_time] of a channel follows the protocol
    ([MEASU:IMM:SOU 1], [MEASU:IMM:TYP FAL], [MEASU:IMM:VAL?], the reply
    read as a float), yet the value it returns carries [pq.S], the
    siemens, and not the second: the unit table of the driver names
    [pq.S] for the five time measurements. *)
Theorem fall_time_in_siemens :
  exists m,
    call_measurement 0 "fall_time" = Some m /\
    fst (m (measuring "1e-9")) =
      Ok {| magnitude := of_decimal false 1 (-9); units := pq_S |} /\
    sent (snd (m (measuring "1e-9"))) =
      ["MEASU:IMM:SOU 1"; "MEASU:IMM:TYP FAL"; "MEASU:IMM:VAL?"] /\
    pq_S <> pq_s /\
    map fst (filter (fun kv => pq_unit_eqb (snd kv) pq_S) MeasurementUnits) =
      ["fall_time"; "negative_width"; "period"; "positive_width";
       "rise_time"] /\
    filter (fun kv => pq_unit_eqb (snd kv) pq_s) MeasurementUnits = [].
Proof.
  eexists; split; [reflexivity|].
  repeat split; try reflexivity. discriminate.
Qed.

End ChannelMeasurement.

(** ** Scientific notation *)

Section Scientific.

Lemma exp10_up_spec num den fuel : forall k,
  0 < den -> 0 <= k ->
  den * 10 ^ k <= num ->
  num < den * 10 ^ (k + Z.of_nat fuel) ->
  let r := exp10_up fuel num den k in
  k <= r /\ den * 10 ^ r <= num < den * 10 ^ (r + 1).
Proof.
  induction fuel as [|f IH]; intros k Hd Hk Hlo Hhi; cbn [exp10_up].
  - replace (k + Z.of_nat 0) with k in Hhi by lia. lia.
  - destruct (Z.leb_spec (den * 10 ^ (k + 1)) num) as [Hle|Hgt].
    + destruct (IH (k + 1)) as [H1 H2]; try lia.
      replace (k + 1 + Z.of_nat f) with (k + Z.of_nat (S f)) by lia.
      exact Hhi.
    + lia.
Qed.

Lemma exp10_down_spec num den fuel : forall j,
  0 < num -> 1 <= j ->
  num * 10 ^ (j - 1) < den ->
  den <= num * 10 ^ (j - 1 + Z.of_nat fuel) ->
  let r := exp10_down fuel num den j in
  j <= r /\ num * 10 ^ (r - 1) < den <= num * 10 ^ r.
Proof.
  induction fuel as [|f IH]; intros j Hn Hj Hlo Hhi; cbn [exp10_down].
  - replace (j - 1 + Z.of_nat 0) with (j - 1) in Hhi by lia. lia.
  - destruct (Z.leb_spec den (num * 10 ^ j)) as [Hle|Hgt].
    + lia.
    + destruct (IH (j + 1)) as [H1 H2]; try lia.
      * now replace (j + 1 - 1) with j by lia.
      * replace (j + 1 - 1 + Z.of_nat f) with (j - 1 + Z.of_nat (S f)) by lia.
        exact Hhi.
Qed.

Lemma pow10_above n : 0 < n -> n < 10 ^ Z.of_nat (S (Z.to_nat (Z.log2 n))).
Proof.
  intros Hn.
  pose proof (Z.log2_nonneg n) as Hl.
  pose proof (Z.log2_spec n Hn) as [_ Hs].
  replace (Z.of_nat (S (Z.to_nat (Z.log2 n)))) with (Z.succ (Z.log2 n)) by lia.
  eapply Z.lt_le_trans; [exact Hs|].
  apply Z.pow_le_mono_l. lia.
Qed.

(** The decimal exponent is the one of the decade [num/den] lies in. *)
Lemma exp10_spec num den :
  0 < num -> 0 < den ->
  let k := exp10 num den in
  den * 10 ^ Z.max 0 k <= num * 10 ^ Z.max 0 (- k) /\
  num * 10 ^ Z.max 0 (- k) < 10 * den * 10 ^ Z.max 0 k.
Proof.
  intros Hn Hd. unfold exp10.
  destruct (Z.leb_spec den num) as [Hle|Hgt].
  - destruct (exp10_up_spec num den (S (Z.to_nat (Z.log2 num))) 0)
      as [H1 [H2 H3]]; try lia.
    { pose proof (pow10_above num Hn). cbn [Z.add]. nia. }
    set (r := exp10_up _ _ _ _) in *. cbv zeta.
    replace (Z.max 0 r) with r by lia. replace (Z.max 0 (- r)) with 0 by lia.
    rewrite Z.pow_add_r in H3 by lia. change (10 ^ 1) with 10 in H3.
    change (10 ^ 0) with 1. lia.
  - destruct (exp10_down_spec num den (S (Z.to_nat (Z.log2 den))) 1)
      as [H1 [H2 H3]]; try lia.
    { pose proof (pow10_above den ltac:(lia)). cbn [Z.sub Z.add Z.opp Z.pos_sub].
      change (1 - 1) with 0. cbn [Z.add]. nia. }
    set (r := exp10_down _ _ _ _) in *. cbv zeta.
    replace (Z.max 0 (- r)) with 0 by lia.
    replace (Z.max 0 (- - r)) with r by lia.
    change (10 ^ 0) with 1.
    replace r with (r - 1 + 1) at 2 by lia.
    rewrite Z.pow_add_r by lia. change (10 ^ 1) with 10.
    lia.
Qed.


(** Rounding to the nearest integer, the even one of two that are equally
    near. *)
Lemma round_half_even_spec num den :
  0 <= num -> 0 < den ->
  let r := round_half_even num den in
  2 * Z.abs (num - r * den) <= den /\
  (2 * Z.abs (num - r * den) = den -> Z.even r = true).
Proof.
  intros Hn Hd. unfold round_half_even.
  pose proof (Z.div_mod num den ltac:(lia)) as E.
  pose proof (Z.mod_pos_bound num den Hd) as B.
  set (q := num / den) in *. set (m := num mod den) in *.
  destruct (Z.compare_spec (2 * m) den) as [He|Hl|Hg]; cbv zeta.
  - destruct (Z.even q) eqn:Ev.
    + split; [|auto]. replace (num - q * den) with m by lia. lia.
    + split.
      * replace (num - (q + 1) * den) with (m - den) by lia. lia.
      * intros _. rewrite Z.even_add, Ev. reflexivity.
  - split.
    + replace (num - q * den) with m by lia. lia.
    + replace (num - q * den) with m by lia. lia.
  - split.
    + replace (num - (q + 1) * den) with (m - den) by lia. lia.
    + replace (num - (q + 1) * den) with (m - den) by lia. lia.
Qed.

(** [d * 10^(k-1)] is [num/den] rounded to two significant digits: [d] has
    two digits, it is the integer nearest to [num/den / 10^(k-1)], the even
    one of two equally near, and [k] is the exponent of the rounded
    number: [num/den] is at least [9.95 * 10^(k-1)], from where numbers
    round to [10^k], and below [99.5 * 10^(k-1)], from where they round
    to [10^(k+1)]. *)
Definition rounds_to (num den d k : Z) : Prop :=
  let sn := num * 10 ^ Z.max 0 (1 - k) in
  let sd := den * 10 ^ Z.max 0 (k - 1) in
  10 <= d <= 99 /\
  2 * Z.abs (sn - d * sd) <= sd /\
  (2 * Z.abs (sn - d * sd) = sd -> Z.even d = true) /\
  199 * sd <= 20 * sn < 1990 * sd.

Lemma sci2_spec num den :
  0 < num -> 0 < den ->
  rounds_to num den (fst (sci2 num den)) (snd (sci2 num den)).
Proof.
  intros Hn Hd. unfold sci2.
  pose proof (exp10_spec num den Hn Hd) as K. cbv zeta in K.
  set (k := exp10 num den) in *.
  assert (E : (if 1 <=? k then round_half_even num (den * 10 ^ (k - 1))
               else round_half_even (num * 10 ^ (1 - k)) den)
              = round_half_even (num * 10 ^ Z.max 0 (1 - k))
                                (den * 10 ^ Z.max 0 (k - 1))).
  { destruct (Z.leb_spec 1 k).
    - replace (Z.max 0 (1 - k)) with 0 by lia.
      replace (Z.max 0 (k - 1)) with (k - 1) by lia.
      change (10 ^ 0) with 1. now rewrite Z.mul_1_r.
    - replace (Z.max 0 (1 - k)) with (1 - k) by lia.
      replace (Z.max 0 (k - 1)) with 0 by lia.
      change (10 ^ 0) with 1. now rewrite Z.mul_1_r. }
  rewrite E. clear E.
  set (sn := num * 10 ^ Z.max 0 (1 - k)).
  set (sd := den * 10 ^ Z.max 0 (k - 1)).
  assert (Hsd : 0 < sd) by (unfold sd; apply Z.mul_pos_pos;
                            [lia|apply Z.pow_pos_nonneg; lia]).
  assert (Hsn : 0 < sn) by (unfold sn; apply Z.mul_pos_pos;
                            [lia|apply Z.pow_pos_nonneg; lia]).
  (* the decade of [k], on the scale of [k - 1] *)
  assert (D : 10 * sd <= sn < 100 * sd).
  { unfold sn, sd. destruct (Z.leb_spec 1 k).
    - replace (Z.max 0 (1 - k)) with 0 by lia.
      replace (Z.max 0 (k - 1)) with (k - 1) by lia.
      replace (Z.max 0 k) with (k - 1 + 1) in K by lia.
      replace (Z.max 0 (- k)) with 0 in K by lia.
      rewrite Z.pow_add_r in K by lia.
      change (10 ^ 1) with 10 in K. change (10 ^ 0) with 1 in *. lia.
    - replace (Z.max 0 (1 - k)) with (- k + 1) by lia.
      replace (Z.max 0 (k - 1)) with 0 by lia.
      replace (Z.max 0 k) with 0 in K by lia.
      replace (Z.max 0 (- k)) with (- k) in K by lia.
      rewrite Z.pow_add_r by lia.
      change (10 ^ 1) with 10. change (10 ^ 0) with 1 in *. lia. }
  pose proof (round_half_even_spec sn sd ltac:(lia) Hsd) as [R1 R2].
  cbv zeta in R1, R2.
  set (d := round_half_even sn sd) in *.
  assert (Hd10 : 10 <= d <= 100) by nia.
  destruct (Z.eqb_spec d 100) as [E100|N100]; cbn [fst snd].
  - (* the carry: 99.5 <= sn/sd < 100 rounds to 10 at the next exponent *)
    unfold rounds_to. cbv zeta.
    assert (S' : num * 10 ^ Z.max 0 (1 - (k + 1)) * 10 * sd
                 = sn * (den * 10 ^ Z.max 0 (k + 1 - 1))
                 /\ 0 < den * 10 ^ Z.max 0 (k + 1 - 1)
                 /\ 0 < num * 10 ^ Z.max 0 (1 - (k + 1))).
    { unfold sn, sd. destruct (Z.leb_spec 1 k).
      - replace (Z.max 0 (1 - (k + 1))) with 0 by lia.
        replace (Z.max 0 (1 - k)) with 0 by lia.
        replace (Z.max 0 (k + 1 - 1)) with (k - 1 + 1) by lia.
        replace (Z.max 0 (k - 1)) with (k - 1) by lia.
        rewrite Z.pow_add_r by lia.
        change (10 ^ 1) with 10. change (10 ^ 0) with 1.
        pose proof (Z.pow_pos_nonneg 10 (k - 1) ltac:(lia) ltac:(lia)).
        nia.
      - replace (Z.max 0 (1 - (k + 1))) with (- k) by lia.
        replace (Z.max 0 (1 - k)) with (- k + 1) by lia.
        replace (Z.max 0 (k + 1 - 1)) with 0 by lia.
        replace (Z.max 0 (k - 1)) with 0 by lia.
        rewrite Z.pow_add_r by lia.
        change (10 ^ 1) with 10. change (10 ^ 0) with 1.
        pose proof (Z.pow_pos_nonneg 10 (- k) ltac:(lia) ltac:(lia)).
        nia. }
    set (sn' := num * 10 ^ Z.max 0 (1 - (k + 1))) in *.
    set (sd' := den * 10 ^ Z.max 0 (k + 1 - 1)) in *.
    destruct S' as (S' & Hsd' & Hsn').
    subst d. rewrite E100 in R1.
    assert (A : 199 * sd <= 2 * sn < 200 * sd) by lia.
    assert (B : 199 * sd' <= 20 * sn' < 200 * sd') by nia.
    split; [lia|]. split; [lia|]. split; [lia|lia].
  - unfold rounds_to. cbv zeta. fold sn sd.
    assert (d <= 99) by lia.
    split; [lia|]. split; [exact R1|]. split; [exact R2|].
    split; [lia|].
    destruct (Z.eq_dec (2 * Z.abs (sn - d * sd)) sd) as [T|T].
    + apply R2 in T. apply Z.even_spec in T as [h Hh]. nia.
    + nia.
Qed.

Lemma digit_val_char z : 0 <= z <= 9 -> digit_val (digit_char z) = z.
Proof.
  intros H.
  assert (C : z = 0 \/ z = 1 \/ z = 2 \/ z = 3 \/ z = 4 \/ z = 5 \/ z = 6
              \/ z = 7 \/ z = 8 \/ z = 9) by lia.
  repeat (destruct C as [->|C]; [reflexivity|]). subst. reflexivity.
Qed.

(** The scale of the exponent [k], [10^(k-1)], as a fraction of two
    integers: ten times larger for the next exponent. *)
Lemma scale_step k1 k2 :
  k1 < k2 ->
  10 * (10 ^ Z.max 0 (k1 - 1) * 10 ^ Z.max 0 (1 - k2))
  <= 10 ^ Z.max 0 (k2 - 1) * 10 ^ Z.max 0 (1 - k1).
Proof.
  intros H.
  rewrite <- !Z.pow_add_r by lia.
  change 10 with (10 ^ 1) at 1.
  rewrite <- Z.pow_add_r by lia.
  apply Z.pow_le_mono_r; lia.
Qed.

Lemma decades_apart num den ka kb :
  0 < num -> 0 < den ->
  199 * (den * 10 ^ Z.max 0 (ka - 1))
    <= 20 * (num * 10 ^ Z.max 0 (1 - ka))
    < 1990 * (den * 10 ^ Z.max 0 (ka - 1)) ->
  199 * (den * 10 ^ Z.max 0 (kb - 1))
    <= 20 * (num * 10 ^ Z.max 0 (1 - kb))
    < 1990 * (den * 10 ^ Z.max 0 (kb - 1)) ->
  ka < kb -> False.
Proof.
  intros Hn Hd Ia Ib Hlt.
  pose proof (scale_step ka kb Hlt) as S.
  pose proof (Z.pow_pos_nonneg 10 (Z.max 0 (1 - ka)) ltac:(lia) ltac:(lia)).
  pose proof (Z.pow_pos_nonneg 10 (Z.max 0 (1 - kb)) ltac:(lia) ltac:(lia)).
  set (Na := 10 ^ Z.max 0 (1 - ka)) in *.
  set (Nb := 10 ^ Z.max 0 (1 - kb)) in *.
  set (Pa := 10 ^ Z.max 0 (ka - 1)) in *.
  set (Pb := 10 ^ Z.max 0 (kb - 1)) in *.
  destruct Ia as [_ Ia]. destruct Ib as [Ib _].
  assert (A : 20 * (num * Na) * Nb < 1990 * (den * Pa) * Nb)
    by (apply Z.mul_lt_mono_pos_r; lia).
  assert (B : 199 * (den * Pb) * Na <= 20 * (num * Nb) * Na)
    by (apply Z.mul_le_mono_nonneg_r; lia).
  assert (C : 199 * den * (10 * (Pa * Nb)) <= 199 * den * (Pb * Na))
    by (apply Z.mul_le_mono_nonneg_l; lia).
  lia.
Qed.

(** The two digits and the exponent are determined by the number. *)
Lemma rounds_to_unique num den d1 k1 d2 k2 :
  0 < num -> 0 < den ->
  rounds_to num den d1 k1 -> rounds_to num den d2 k2 ->
  d1 = d2 /\ k1 = k2.
Proof.
  intros Hn Hd (D1 & N1 & E1 & I1) (D2 & N2 & E2 & I2).
  assert (Hk : k1 = k2).
  { destruct (Z.lt_trichotomy k1 k2) as [L|[L|L]]; [|exact L|].
    - exfalso. exact (decades_apart num den k1 k2 Hn Hd I1 I2 L).
    - exfalso. exact (decades_apart num den k2 k1 Hn Hd I2 I1 L). }
  subst k2. split; [|reflexivity].
  set (sn := num * 10 ^ Z.max 0 (1 - k1)) in *.
  set (sd := den * 10 ^ Z.max 0 (k1 - 1)) in *.
  assert (Hsd : 0 < sd) by (unfold sd; apply Z.mul_pos_pos;
                            [lia|apply Z.pow_pos_nonneg; lia]).
  clear I1 I2 D1 D2.
  destruct (Z.lt_trichotomy d1 d2) as [L|[L|L]]; [|exact L|]; exfalso.
  - assert (d2 = d1 + 1).
    { destruct (Z_le_gt_dec (d1 + 2) d2) as [G|G]; [exfalso|lia].
      assert (M : (d1 + 2) * sd <= d2 * sd)
        by (apply Z.mul_le_mono_nonneg_r; lia).
      lia. }
    subst d2.
    assert (T1 : 2 * Z.abs (sn - d1 * sd) = sd) by lia.
    assert (T2 : 2 * Z.abs (sn - (d1 + 1) * sd) = sd) by lia.
    apply E1 in T1. apply E2 in T2.
    rewrite Z.even_add, T1 in T2. discriminate T2.
  - assert (d1 = d2 + 1).
    { destruct (Z_le_gt_dec (d2 + 2) d1) as [G|G]; [exfalso|lia].
      assert (M : (d2 + 2) * sd <= d1 * sd)
        by (apply Z.mul_le_mono_nonneg_r; lia).
      lia. }
    subst d1.
    assert (T1 : 2 * Z.abs (sn - d2 * sd) = sd) by lia.
    assert (T2 : 2 * Z.abs (sn - (d2 + 1) * sd) = sd) by lia.
    apply E2 in T1. apply E1 in T2.
    rewrite Z.even_add, T1 in T2. discriminate T2.
Qed.

Lemma digit_val_inj c1 c2 : digit_val c1 = digit_val c2 -> c1 = c2.
Proof.
  unfold digit_val. intros H.
  assert (E : nat_of_ascii c1 = nat_of_ascii c2) by lia.
  rewrite <- (ascii_nat_embedding c1), <- (ascii_nat_embedding c2).
  now rewrite E.
Qed.

(** The text of a float in scientific notation with one digit after the
    point, [{:.1E}]: for a finite number other than zero, a minus sign
    when negative, the first digit, a point, the second digit, [E], the
    sign of the exponent and its digits, two at least; [d] and [k] are
    the two digits and the exponent of the number rounded to two
    significant digits.  A finite float [(s, m, e)] is [m * 2^e],
    negative when [s] is set. *)
Definition scientific (x : float) (text : string) : Prop :=
  match x with
  | S754_nan => text = "NAN"
  | S754_infinity s => text = (if s then "-INF" else "INF")
  | S754_zero s => text = (if s then "-0.0E+00" else "0.0E+00")
  | S754_finite s m e =>
      exists d k c1 c2,
        rounds_to (Zpos m * 2 ^ Z.max 0 e) (2 ^ Z.max 0 (- e)) d k /\
        digit_val c1 = d / 10 /\
        digit_val c2 = d mod 10 /\
        text =
          (if s then "-" else "")
          ++ String c1 (String "." (String c2 (String "E"
               (String (if k <? 0 then "-" else "+")
                  (if Z.abs k <? 10 then String "0" (str_of_int (Z.abs k))
                   else str_of_int (Z.abs k))))))
  end.

Lemma format_1E_scientific x : scientific x (format_1E x).
Proof.
  destruct x as [s|s| |s m e]; cbn [scientific format_1E];
    try (destruct s; reflexivity); try reflexivity.
  assert (E : (if 0 <=? e then sci2 (Z.pos m * 2 ^ e) 1
               else sci2 (Z.pos m) (2 ^ (- e)))
              = sci2 (Z.pos m * 2 ^ Z.max 0 e) (2 ^ Z.max 0 (- e))).
  { destruct (Z.leb_spec 0 e).
    - replace (Z.max 0 e) with e by lia.
      replace (Z.max 0 (- e)) with 0 by lia. reflexivity.
    - replace (Z.max 0 e) with 0 by lia.
      replace (Z.max 0 (- e)) with (- e) by lia.
      change (2 ^ 0) with 1. now rewrite Z.mul_1_r. }
  rewrite E. clear E.
  assert (Hn : 0 < Z.pos m * 2 ^ Z.max 0 e)
    by (apply Z.mul_pos_pos; [lia|apply Z.pow_pos_nonneg; lia]).
  assert (Hd : 0 < 2 ^ Z.max 0 (- e)) by (apply Z.pow_pos_nonneg; lia).
  pose proof (sci2_spec _ _ Hn Hd) as R.
  destruct (sci2 _ _) as [d k]. cbn [fst snd] in R.
  exists d, k, (digit_char (d / 10)), (digit_char (d mod 10)).
  split; [exact R|].
  destruct R as [Hd2 _].
  split; [apply digit_val_char; Z.div_mod_to_equations; lia|].
  split; [apply digit_val_char; Z.div_mod_to_equations; lia|].
  unfold sign_field, mantissa_field, exp_field.
  destruct s; reflexivity.
Qed.

(** A float has one such text only. *)
Lemma scientific_unique x t1 t2 :
  scientific x t1 -> scientific x t2 -> t1 = t2.
Proof.
  destruct x as [s|s| |s m e]; cbn [scientific];
    try (intros -> ->; reflexivity).
  intros (d1 & k1 & a1 & b1 & R1 & A1 & B1 & ->)
         (d2 & k2 & a2 & b2 & R2 & A2 & B2 & ->).
  assert (Hn : 0 < Z.pos m * 2 ^ Z.max 0 e)
    by (apply Z.mul_pos_pos; [lia|apply Z.pow_pos_nonneg; lia]).
  assert (Hd : 0 < 2 ^ Z.max 0 (- e)) by (apply Z.pow_pos_nonneg; lia).
  destruct (rounds_to_unique _ _ _ _ _ _ Hn Hd R1 R2) as [<- <-].
  rewrite <- A2 in A1. rewrite <- B2 in B1.
  apply digit_val_inj in A1, B1. now subst.
Qed.

End Scientific.

(** ** Time base *)

Section TimeScale.

Definition idle : Link :=
  {| device := {| regs := fun _ => None; waveform := fun _ => [] |};
     inbuf := []; sent := [] |}.

Lemma set_time_scale_run new_val lk :
  set_time_scale new_val lk =
    match rescale_s (assume_units new_val pq_s) lk with
    | (Ok v, _) =>
        (Ok tt,
         {| device := set_reg "HORizontal:MAIn:SCAle" (format_1E v) (device lk);
            inbuf := inbuf lk;
            sent := sent lk ++ ["HORizontal:MAIn:SCAle " ++ format_1E v] |})
    | (Raise e, _) => (Raise e, lk)
    end.
Proof.
  unfold set_time_scale, bind, rescale_s.
  destruct (units (assume_units new_val pq_s)); cbn [ret raise];
    try reflexivity;
    change ("HORizontal:MAIn:SCAle " ++ ?t)
      with ("HORizontal:MAIn:SCAle" ++ String " " t);
    now rewrite sendcmd_stored by reflexivity.
Qed.

(** The number of seconds of what the setter is handed: a bare number
    counts as seconds, a quantity in seconds is its magnitude, a quantity
    in another unit of time is its magnitude times the seconds the unit
    is worth; a quantity that is not a time has none. *)
Definition in_seconds (new_val : float + Quantity) : option float :=
  match new_val with
  | inl x => Some x
  | inr q =>
      match units q with
      | pq_s => Some (magnitude q)
      | pq_time cf => Some (mul cf (magnitude q))
      | _ => None
      end
  end.

(** C9.  The [time_scale] setter takes a time, brings it to seconds and
    writes one command, [HORizontal:MAIn:SCAle] followed by the number of
    seconds in scientific notation with one digit after the point: the
    text of [scientific], which is the number rounded to two significant
    digits, and the only such text.  A quantity that is not a time is
    refused with nothing written.  For 2.5e-3 seconds, as a bare number,
    as a quantity in seconds and as 2.5 milliseconds, the command is
    [HORizontal:MAIn:SCAle 2.5E-03]; one second is written [1.0E+00],
    9.96 seconds [1.0E+01], a microsecond as one unit of 1e-6 seconds
    [1.0E-06], and 1.25, halfway between 1.2 and 1.3, [1.2E+00]. *)
Theorem time_scale_command (lk : Link) (new_val : float + Quantity) :
  match in_seconds new_val with
  | Some v =>
      exists text lk1,
        scientific v text /\
        (forall other, scientific v other -> other = text) /\
        set_time_scale new_val lk = (Ok tt, lk1) /\
        wrote lk lk1 ["HORizontal:MAIn:SCAle " ++ text]
  | None => set_time_scale new_val lk = (Raise ValueError, lk)
  end /\
  py_float "2.5e-3" = Some (of_decimal false 25 (-4)) /\
  sent (snd (set_time_scale (inl (of_decimal false 25 (-4))) idle)) =
    ["HORizontal:MAIn:SCAle 2.5E-03"] /\
  sent (snd (set_time_scale
               (inr {| magnitude := of_decimal false 25 (-4);
                       units := pq_s |}) idle)) =
    ["HORizontal:MAIn:SCAle 2.5E-03"] /\
  sent (snd (set_time_scale
               (inr {| magnitude := of_decimal false 25 (-1);
                       units := pq_ms |}) idle)) =
    ["HORizontal:MAIn:SCAle 2.5E-03"] /\
  map (fun x => sent (snd (set_time_scale (inl x) idle)))
      [of_Z 1; of_decimal false 996 (-2); of_decimal false 125 (-2)] =
    [["HORizontal:MAIn:SCAle 1.0E+00"]; ["HORizontal:MAIn:SCAle 1.0E+01"];
     ["HORizontal:MAIn:SCAle 1.2E+00"]] /\
  sent (snd (set_time_scale
               (inr {| magnitude := of_Z 1;
                       units := pq_time (of_decimal false 1 (-6)) |}) idle)) =
    ["HORizontal:MAIn:SCAle 1.0E-06"].
Proof.
  split; [|repeat split; vm_compute; reflexivity].
  rewrite set_time_scale_run. unfold in_seconds, rescale_s.
  destruct new_val as [x|[x u]]; cbn [assume_units units magnitude ret raise].
  - exists (format_1E x). eexists.
    split; [apply format_1E_scientific|].
    split; [intros other Ho;
            exact (scientific_unique x _ _ Ho (format_1E_scientific x))|].
    split; reflexivity.
  - destruct u as [| | | |cf]; cbn [ret raise]; try reflexivity.
    + exists (format_1E x). eexists.
      split; [apply format_1E_scientific|].
      split; [intros other Ho;
              exact (scientific_unique x _ _ Ho (format_1E_scientific x))|].
      split; reflexivity.
    + exists (format_1E (mul cf x)). eexists.
      split; [apply format_1E_scientific|].
      split; [intros other Ho;
              exact (scientific_unique _ _ _ Ho (format_1E_scientific _))|].
      split; reflexivity.
Qed.

End TimeScale.

(** ** The list of measurements *)

Section MeasurementList.

Definition not_semicolon (c : ascii) : bool := negb (Ascii.eqb c ";").




(** One group of the reply to [MEASU?]: the measurement type by name and
    by code, the field the driver does not look at, the designator of
    the channel and the number it stands for. *)
Record Group : Type := {
  g_name : string;
  g_code : string;
  g_unused : string;
  g_designator : string;
  g_channel : float
}.

Definition fields (g : Group) : list string :=
  [g_code g; g_unused g; g_designator g].



Lemma catalog_reverse nm code :
  In (nm, code) MeasurementTypes ->
  keys_of code MeasurementTypes = [nm] /\
  all_chars not_semicolon code = true.
Proof.
  unfold MeasurementTypes. intros H.
  repeat (destruct H as [[= <- <-]|H]; [split; reflexivity|]).
  destruct H.
Qed.







End MeasurementList.

(** ** Binary blocks *)

Section BinaryBlock.

Lemma take_app a b : take (String.length a) (a ++ b) = a.
Proof. induction a as [|c a IH]; simpl; [now destruct b|now rewrite IH]. Qed.

Lemma drop_app a b : drop (String.length a) (a ++ b) = b.
Proof. induction a as [|c a IH]; simpl; [reflexivity|exact IH]. Qed.

Lemma take_exact a b n : String.length a = n -> take n (a ++ b) = a.
Proof. intros <-. apply take_app. Qed.

Lemma drop_exact a b n : String.length a = n -> drop n (a ++ b) = b.
Proof. intros <-. apply drop_app. Qed.

Lemma length_app_text a b :
  String.length (a ++ b) = (String.length a + String.length b)%nat.
Proof. induction a as [|c a IH]; simpl; [reflexivity|now rewrite IH]. Qed.

Lemma rstrip_digits s : all_chars is_digit s = true -> rstrip s = s.
Proof.
  induction s as [|c s IH]; simpl; [reflexivity|].
  rewrite andb_true_iff; intros [Hc Hs]. rewrite (IH Hs).
  destruct s; [|reflexivity].
  destruct c as [[] [] [] [] [] [] [] []]; try discriminate Hc; reflexivity.
Qed.

(** A run of digits holds no underscore, so nothing is dropped. *)
Lemma ungroup_digits s b :
  all_chars is_digit s = true -> ungroup_from b s = Some s.
Proof.
  revert b. induction s as [|c s IH]; intros b; simpl; [reflexivity|].
  rewrite andb_true_iff; intros [Hc Hs].
  destruct c as [[] [] [] [] [] [] [] []]; try discriminate Hc;
    cbn [Ascii.eqb Bool.eqb]; rewrite (IH _ Hs); reflexivity.
Qed.

Lemma py_int_digits c s :
  all_chars is_digit (String c s) = true ->
  py_int (String c s) = int_of_digits (String c s).
Proof.
  intros H. unfold py_int, strip, ungroup.
  assert (L : lstrip (String c s) = String c s).
  { simpl in *. apply andb_true_iff in H as [Hc _].
    destruct c as [[] [] [] [] [] [] [] []]; try discriminate Hc; reflexivity. }
  rewrite L, (rstrip_digits _ H), (ungroup_digits _ _ H).
  simpl in H. apply andb_true_iff in H as [Hc _].
  destruct c as [[] [] [] [] [] [] [] []]; try discriminate Hc; reflexivity.
Qed.

(** [int] reads back what [format] wrote. *)
Lemma py_int_str_of_int n : 0 <= n -> py_int (str_of_int n) = Some n.
Proof.
  intros Hn. destruct n as [|p|p]; [reflexivity| |lia].
  unfold str_of_int. cbn [Z.to_int NilZero.string_of_int].
  assert (Hnil : Pos.to_uint p <> Decimal.Nil)
    by (intros E; apply (f_equal Pos.of_uint) in E;
        rewrite DecimalPos.Unsigned.of_to in E; discriminate).
  assert (E : NilZero.string_of_uint (Pos.to_uint p)
              = NilEmpty.string_of_uint (Pos.to_uint p))
    by (destruct (Pos.to_uint p); [contradiction| reflexivity ..]).
  rewrite E.
  pose proof (uint_text_digits (Pos.to_uint p)) as D.
  destruct (NilEmpty.string_of_uint (Pos.to_uint p)) as [|c s] eqn:T.
  - destruct (Pos.to_uint p); [contradiction|discriminate ..].
  - rewrite (py_int_digits c s D). unfold int_of_digits.
    rewrite <- T, NilEmpty.usu. cbn [option_map]. f_equal.
    unfold Z.of_uint. now rewrite DecimalPos.Unsigned.of_to.
Qed.

Lemma one_digit k :
  (k <= 9)%nat -> String.length (str_of_int (Z.of_nat k)) = 1%nat.
Proof.
  intros Hk.
  do 10 (destruct k as [|k]; [reflexivity|]). lia.
Qed.

(** Two's complement on [w] bytes. *)
Definition wrap (w : nat) (x : Z) : Z :=
  let m := 256 ^ Z.of_nat w in
  let u := x mod m in
  if 2 * u <? m then u else u - m.

Lemma wrap_in_range w x :
  - (256 ^ Z.of_nat w) <= 2 * x < 256 ^ Z.of_nat w -> wrap w x = x.
Proof.
  intros H. unfold wrap.
  assert (Hm : 0 < 256 ^ Z.of_nat w) by (apply Z.pow_pos_nonneg; lia).
  destruct (Z_lt_le_dec x 0) as [Hneg|Hpos].
  - assert (E : x mod 256 ^ Z.of_nat w = x + 256 ^ Z.of_nat w).
    { symmetry. apply Z.mod_unique with (q := -1); lia. }
    rewrite E. destruct (Z.ltb_spec (2 * (x + 256 ^ Z.of_nat w)) (256 ^ Z.of_nat w)); lia.
  - rewrite Z.mod_small by lia.
    destruct (Z.ltb_spec (2 * x) (256 ^ Z.of_nat w)); lia.
Qed.

Lemma be_bytes_length w x : String.length (be_bytes w x) = w.
Proof. induction w as [|w IH]; simpl; [reflexivity|now rewrite IH]. Qed.

Lemma byte_val_of b :
  0 <= b < 256 -> byte_val (ascii_of_N (Z.to_N b)) = b.
Proof.
  intros H. unfold byte_val.
  rewrite N_ascii_embedding by lia. lia.
Qed.

Lemma be_unsigned_bytes w x acc :
  be_unsigned (be_bytes w x) acc = acc * 256 ^ Z.of_nat w + x mod 256 ^ Z.of_nat w.
Proof.
  revert acc; induction w as [|w IH]; intros acc.
  - cbn. rewrite Z.mod_1_r. lia.
  - cbn [be_bytes be_unsigned]. rewrite IH.
    rewrite byte_val_of by (apply Z.mod_pos_bound; lia).
    rewrite Nat2Z.inj_succ, Z.pow_succ_r by lia.
    assert (Hp : 0 < 256 ^ Z.of_nat w) by (apply Z.pow_pos_nonneg; lia).
    rewrite (Z.mul_comm 256 (256 ^ Z.of_nat w)).
    rewrite (Z.rem_mul_r x (256 ^ Z.of_nat w) 256) by lia.
    lia.
Qed.

Lemma be_signed_bytes w x : be_signed (be_bytes w x) = wrap w x.
Proof.
  unfold be_signed, wrap. rewrite be_unsigned_bytes, be_bytes_length.
  reflexivity.
Qed.

Lemma concat_map_length w l :
  String.length (concat_map (be_bytes w) l) = (List.length l * w)%nat.
Proof.
  induction l as [|x l IH]; simpl; [reflexivity|].
  now rewrite length_app_text, be_bytes_length, IH.
Qed.

Lemma chunks_bytes w l fuel :
  (0 < w)%nat -> (List.length l <= fuel)%nat ->
  chunks fuel w (concat_map (be_bytes w) l) = map (be_bytes w) l.
Proof.
  intros Hw. revert fuel; induction l as [|x l IH]; intros fuel Hf.
  - destruct fuel; reflexivity.
  - destruct fuel as [|fuel]; [simpl in Hf; lia|].
    cbn [concat_map chunks map].
    destruct (be_bytes w x ++ concat_map (be_bytes w) l) eqn:E.
    + apply (f_equal String.length) in E.
      rewrite length_app_text, be_bytes_length in E. simpl in E. lia.
    + rewrite <- E.
      rewrite (take_exact _ _ _ (be_bytes_length w x)).
      rewrite (drop_exact _ _ _ (be_bytes_length w x)).
      f_equal. apply IH. simpl in Hf. lia.
Qed.

(** Decoding the bytes of a record gives its samples, each wrapped to
    the width. *)
Lemma frombuffer_bytes w l lk :
  (0 < w)%nat ->
  frombuffer w (concat_map (be_bytes w) l) lk = (Ok (map (wrap w) l), lk).
Proof.
  intros Hw. unfold frombuffer. destruct w as [|w']; [lia|].
  rewrite concat_map_length, Nat.Div0.mod_mul. cbn [Nat.eqb].
  rewrite <- concat_map_length with (w := S w').
  rewrite chunks_bytes.
  - rewrite map_map. unfold ret. f_equal. f_equal.
    apply map_ext. intros x. apply be_signed_bytes.
  - lia.
  - rewrite concat_map_length. nia.
Qed.

(** Reading the block the instrument sends: the samples, and the
    terminator left pending. *)
Lemma binblockread_block w l rest d snt :
  (0 < w)%nat ->
  (String.length (str_of_int (Z.of_nat (String.length
      (concat_map (be_bytes w) l)))) <= 9)%nat ->
  binblockread (Z.of_nat w)
    {| device := d;
       inbuf := (binary_block (concat_map (be_bytes w) l) ++ LF) :: rest;
       sent := snt |}
  = (Ok (map (wrap w) l), {| device := d; inbuf := LF :: rest; sent := snt |}).
Proof.
  intros Hw Hlen.
  set (data := concat_map (be_bytes w) l) in *.
  set (len := str_of_int (Z.of_nat (String.length data))) in *.
  pose proof (one_digit (String.length len) Hlen) as Hd.
  unfold binblockread, binary_block. fold len.
  unfold bind at 1. unfold read_raw at 1. cbn [inbuf device sent take drop append].
  cbn [String.eqb Ascii.eqb Bool.eqb negb].
  unfold bind at 1. unfold read_raw at 1. cbn [inbuf device sent].
  rewrite !app_assoc_text.
  rewrite (take_exact _ _ _ Hd), (drop_exact _ _ _ Hd).
  unfold bind at 1. rewrite py_int_str_of_int by lia. cbn [convert ret].
  unfold bind at 1. unfold read_raw at 1. cbn [inbuf device sent].
  rewrite Nat2Z.id, take_app, drop_app.
  unfold bind at 1. unfold len at 1. rewrite py_int_str_of_int by lia.
  cbn [convert ret].
  unfold bind at 1. unfold read_raw at 1. cbn [inbuf device sent].
  rewrite Nat2Z.id, take_app, drop_app, Nat.ltb_irrefl.
  unfold data. rewrite Nat2Z.id. now apply frombuffer_bytes.
Qed.

End BinaryBlock.

(** ** Waveform acquisition *)

Section Acquisition.

Lemma bind_ok {A B} (c : M A) (k : A -> M B) lk a lk1 :
  c lk = (Ok a, lk1) -> bind c k lk = k a lk1.
Proof. intros H. unfold bind. now rewrite H. Qed.

Lemma bind_raise {A B} (c : M A) (k : A -> M B) lk e lk1 :
  c lk = (Raise e, lk1) -> bind c k lk = (Raise e, lk1).
Proof. intros H. unfold bind. now rewrite H. Qed.

(** The preamble queries of a data source, [WFMP:<name>:<field>?]. *)
Lemma wfmp_query nm field v lk :
  all_chars not_blank nm = true ->
  all_chars not_blank field = true ->
  regs (device lk) ("WFMP:" ++ nm ++ ":" ++ field) = Some v ->
  inbuf lk = [] ->
  query ("WFMP:" ++ nm ++ ":" ++ field ++ "?") lk =
    (Ok v, {| device := device lk; inbuf := [];
              sent := sent lk ++ ["WFMP:" ++ nm ++ ":" ++ field ++ "?"] |}).
Proof.
  intros Hn Hf Hr Hi.
  assert (E : "WFMP:" ++ nm ++ ":" ++ field ++ "?"
              = ("WFMP:" ++ nm ++ ":" ++ field) ++ "?").
  { cbn [append]. do 5 f_equal.
    now rewrite (app_assoc_text nm (String ":" field) "?"). }
  rewrite E at 1.
  rewrite (query_answered _ ("WFMP:" ++ nm ++ ":" ++ field) v lk);
    [now rewrite <- E | reflexivity | | apply query_header_mark
    | exact Hr | exact Hi].
  rewrite split_header_none; [reflexivity|].
  rewrite <- E. cbn [append all_chars].
  rewrite all_chars_app, Hn. cbn [all_chars].
  rewrite all_chars_app, Hf. reflexivity.
Qed.

(** What the instrument holds when a waveform is read from [self]. *)
Record Acquisition : Type := {
  width : nat;
  samples : list Z;
  yoffs : float;
  ymult : float;
  yzero : float;
  xzero : float;
  xincr : float;
  ptcnt : float;
  points : Z
}.

(** What a read of [self] needs of the link and the instrument: nothing
    is pending, the name of [self] has no blank, and the instrument
    holds a sample width of 1 or 2 and, for each preamble query, a text
    that reads as the number named; the record, encoded at that width,
    fits a block. *)
Record Holding (lk : Link) (self : DataSource) (a : Acquisition) : Prop := {
  nothing_pending : inbuf lk = [];
  plain_name : all_chars not_blank (name self) = true;
  width_held :
    exists t, regs (device lk) "DATA:WIDTH" = Some t /\
              py_int t = Some (Z.of_nat (width a));
  width_valid : width a = 1%nat \/ width a = 2%nat;
  record_fits :
    (String.length (str_of_int (Z.of_nat
       (String.length (concat_map (be_bytes (width a)) (samples a))))) <= 9)%nat;
  yoffs_held :
    exists t, regs (device lk) ("WFMP:" ++ name self ++ ":YOF") = Some t /\
              py_float t = Some (yoffs a);
  ymult_held :
    exists t, regs (device lk) ("WFMP:" ++ name self ++ ":YMU") = Some t /\
              py_float t = Some (ymult a);
  yzero_held :
    exists t, regs (device lk) ("WFMP:" ++ name self ++ ":YZE") = Some t /\
              py_float t = Some (yzero a);
  xzero_held :
    exists t, regs (device lk) "WFMP:XZE" = Some t /\
              py_float t = Some (xzero a);
  xincr_held :
    exists t, regs (device lk) "WFMP:XIN" = Some t /\
              py_float t = Some (xincr a);
  ptcnt_held :
    exists t, regs (device lk) ("WFMP:" ++ name self ++ ":NR_P") = Some t /\
              py_float t = Some (ptcnt a);
  points_counted : ceil (ptcnt a) = Some (points a)
}.

(** Inside the [with] block the instrument moreover has [sel] selected
    and holds the record [samples] for it. *)
Record Prepared (lk : Link) (self : DataSource) (sel : string)
       (a : Acquisition) : Prop := {
  held : Holding lk self a;
  source_selected : regs (device lk) "DAT:SOU" = Some sel;
  record_held : waveform (device lk) sel = samples a
}.

(** The voltages and the times the driver computes from them. *)
Definition voltages (a : Acquisition) : list float :=
  map (fun r => add (mul (sub (of_Z (wrap (width a) r)) (yoffs a)) (ymult a))
                    (yzero a))
      (samples a).

Definition times (a : Acquisition) : list float :=
  map (fun i => add (mul (of_Z (Z.of_nat i)) (xincr a)) (xzero a))
      (seq 0 (Z.to_nat (points a))).

Definition body_commands (self : DataSource) : list string :=
  ["DAT:ENC RIB"; "DATA:WIDTH?"; "CURVE?";
   "WFMP:" ++ name self ++ ":YOF?";
   "WFMP:" ++ name self ++ ":YMU?";
   "WFMP:" ++ name self ++ ":YZE?";
   "WFMP:XZE?"; "WFMP:XIN?";
   "WFMP:" ++ name self ++ ":NR_P?"].

Lemma read_raw_samples_run lk sel n t :
  inbuf lk = [] ->
  regs (device lk) "DAT:SOU" = Some sel ->
  regs (device lk) "DATA:WIDTH" = Some t ->
  py_int t = Some (Z.of_nat n) ->
  (n = 1 \/ n = 2)%nat ->
  (String.length (str_of_int (Z.of_nat (String.length
     (concat_map (be_bytes n) (waveform (device lk) sel))))) <= 9)%nat ->
  read_raw_samples true lk =
    (Ok (IntArray (map (wrap n) (waveform (device lk) sel))),
     {| device := set_reg "DAT:ENC" "RIB" (device lk);
        inbuf := [];
        sent := sent lk ++ ["DAT:ENC RIB"; "DATA:WIDTH?"; "CURVE?"] |}).
Proof.
  intros Hi Hsel Hw Hwt Hwv Hfit.
  unfold read_raw_samples. cbn [negb].
  change "DAT:ENC RIB" with ("DAT:ENC" ++ String " " "RIB").
  erewrite bind_ok by (apply sendcmd_stored; reflexivity).
  unfold Tek.data_width.
  erewrite bind_ok.
  2:{ erewrite bind_ok.
      2:{ apply (query_answered "DATA:WIDTH?" "DATA:WIDTH" t);
          [reflexivity|reflexivity|reflexivity|exact Hw|exact Hi]. }
      rewrite Hwt. reflexivity. }
  cbn [device inbuf sent].
  set (d1 := set_reg "DAT:ENC" "RIB" (device lk)).
  assert (Hc : curve_reply d1 =
               [binary_block (concat_map (be_bytes n) (waveform (device lk) sel))
                  ++ LF]).
  { unfold curve_reply, device_width, d1.
    cbn [set_reg regs waveform String.eqb Ascii.eqb Bool.eqb].
    rewrite Hsel. cbn [String.eqb Ascii.eqb Bool.eqb].
    rewrite Hw, Hwt.
    assert (Ew : ((Z.of_nat n =? 1) || (Z.of_nat n =? 2))%bool = true)
      by (destruct Hwv as [-> | ->]; reflexivity).
    rewrite Ew, Nat2Z.id.
    apply Nat.leb_le in Hfit. now rewrite Hfit. }
  erewrite bind_ok.
  2:{ unfold sendcmd, react. cbn [String.eqb Ascii.eqb Bool.eqb device inbuf sent].
      rewrite Hc. cbn [app]. reflexivity. }
  erewrite bind_ok.
  2:{ apply binblockread_block; [destruct Hwv; lia|exact Hfit]. }
  unfold bind, flush_input, ret. cbn [device inbuf sent].
  rewrite <- !app_assoc. reflexivity.
Qed.

Lemma read_raw_samples_binary lk self sel a :
  Prepared lk self sel a ->
  read_raw_samples true lk =
    (Ok (IntArray (map (wrap (width a)) (samples a))),
     {| device := set_reg "DAT:ENC" "RIB" (device lk);
        inbuf := [];
        sent := sent lk ++ ["DAT:ENC RIB"; "DATA:WIDTH?"; "CURVE?"] |}).
Proof.
  intros [[Hi _ (t & Hw & Hwt) Hwv Hfit _ _ _ _ _ _ _] Hsel Hrec].
  rewrite <- Hrec in *.
  now apply read_raw_samples_run with (t := t).
Qed.

(** The body of a binary read on a prepared instrument: it ends after the
    nine commands, with the two arrays when numpy can size the time axis
    and with [ValueError] when it cannot. *)
Lemma read_waveform_body_outcome lk self sel a :
  Prepared lk self sel a ->
  read_waveform_body self true lk =
    ((if sizable (points a)
      then Ok (FloatArray (times a), FloatArray (voltages a))
      else Raise ValueError),
     {| device := set_reg "DAT:ENC" "RIB" (device lk);
        inbuf := [];
        sent := sent lk ++ body_commands self |}).
Proof.
  intros P. pose proof (read_raw_samples_binary lk self sel a P) as Hraw.
  destruct P as [[Hi Hn _ _ _ (to & Hro & Ho) (tm & Hrm & Hm)
                     (tz & Hrz & Hz) (tx0 & Hrx0 & Hx0) (tdx & Hrdx & Hdx)
                     (tp & Hrp & Hp) Hc] _ _].
  unfold read_waveform_body.
  erewrite bind_ok by exact Hraw.
  erewrite bind_ok
    by (apply (wfmp_query (name self) "YOF" to);
        [exact Hn|reflexivity|exact Hro|reflexivity]).
  erewrite bind_ok
    by (apply (wfmp_query (name self) "YMU" tm);
        [exact Hn|reflexivity|exact Hrm|reflexivity]).
  erewrite bind_ok
    by (apply (wfmp_query (name self) "YZE" tz);
        [exact Hn|reflexivity|exact Hrz|reflexivity]).
  rewrite Ho, Hm, Hz. cbn [convert nd_op].
  do 6 (erewrite bind_ok by reflexivity).
  erewrite bind_ok
    by (apply (query_answered "WFMP:XZE?" "WFMP:XZE" tx0);
        [reflexivity|reflexivity|reflexivity|exact Hrx0|reflexivity]).
  erewrite bind_ok
    by (apply (query_answered "WFMP:XIN?" "WFMP:XIN" tdx);
        [reflexivity|reflexivity|reflexivity|exact Hrdx|reflexivity]).
  erewrite bind_ok
    by (apply (wfmp_query (name self) "NR_P" tp);
        [exact Hn|reflexivity|exact Hrp|reflexivity]).
  rewrite Hp, Hdx, Hx0. cbn [convert].
  erewrite bind_ok by reflexivity.
  unfold np_arange. rewrite Hc.
  destruct (sizable (points a)).
  - cbn [nd_op].
    do 5 (erewrite bind_ok by reflexivity).
    unfold ret, times, voltages, body_commands. cbn [device inbuf sent].
    rewrite !map_map, <- !app_assoc. reflexivity.
  - erewrite bind_raise by reflexivity.
    unfold body_commands. cbn [device inbuf sent].
    rewrite <- !app_assoc. reflexivity.
Qed.

Lemma read_waveform_body_binary lk self sel a :
  Prepared lk self sel a ->
  sizable (points a) = true ->
  read_waveform_body self true lk =
    (Ok (FloatArray (times a), FloatArray (voltages a)),
     {| device := set_reg "DAT:ENC" "RIB" (device lk);
        inbuf := [];
        sent := sent lk ++ body_commands self |}).
Proof.
  intros P S. rewrite (read_waveform_body_outcome lk self sel a P), S.
  reflexivity.
Qed.

(** The data source object the getter makes of a reply. *)
Definition source_named (reply : string) : result DataSource :=
  if startswith "CH" reply then
    match py_int (drop 2 reply) with
    | Some n => Ok (_TekTDS224Channel (n - 1))
    | None => Raise ValueError
    end
  else Ok (_TekTDS224DataSource reply).

(** Selecting another source changes nothing of what is held. *)
Lemma holding_selected lk self a v snt :
  Holding lk self a ->
  Holding {| device := set_reg "DAT:SOU" v (device lk); inbuf := [];
             sent := snt |} self a.
Proof.
  intros [Hi Hn Hw Hwv Hfit Ho Hm Hz Hx0 Hdx Hp Hc].
  constructor; try assumption; try reflexivity.
Qed.

Lemma holding_sent lk self a snt :
  Holding lk self a ->
  Holding {| device := device lk; inbuf := []; sent := snt |} self a.
Proof.
  intros [Hi Hn Hw Hwv Hfit Ho Hm Hz Hx0 Hdx Hp Hc].
  constructor; try assumption; try reflexivity.
Qed.

(** The source the instrument has selected inside the [with] block. *)
Definition selection (cur : string) (old self : DataSource) : string :=
  if String.eqb (name old) (name self) then cur else name self.

(** The commands of a whole binary read. *)
Definition read_commands (old self : DataSource) : list string :=
  if String.eqb (name old) (name self)
  then "DAT:SOU?" :: body_commands self
  else "DAT:SOU?" :: ("DAT:SOU " ++ name self)
         :: (body_commands self ++ [("DAT:SOU " ++ name old)%string])%list.

(** A binary read of a source the instrument is prepared for returns
    the times and the voltages, after the commands of the read and with
    nothing left pending. *)
Lemma read_waveform_binary lk self cur old a :
  Holding lk self a ->
  sizable (points a) = true ->
  regs (device lk) "DAT:SOU" = Some cur ->
  source_named cur = Ok old ->
  waveform (device lk) (selection cur old self) = samples a ->
  exists lk1,
    read_waveform self true lk =
      (Ok (FloatArray (times a), FloatArray (voltages a)), lk1) /\
    wrote lk lk1 (read_commands old self) /\
    inbuf lk1 = [].
Proof.
  intros H Hsz Hcur Hold Hrec.
  pose proof (nothing_pending _ _ _ H) as Hi.
  unfold read_waveform, with_source, enter.
  erewrite bind_ok.
  2:{ rewrite (data_source_run lk cur Hi Hcur).
      fold (source_named cur). rewrite Hold. reflexivity. }
  unfold selection, read_commands in *.
  destruct (String.eqb (name old) (name self)) eqn:E; cbn [negb].
  - unfold ret at 1.
    erewrite read_waveform_body_binary with (sel := cur) (a := a).
    + cbn [leave ret]. eexists; split; [reflexivity|].
      split; [|reflexivity]. unfold wrote. cbn [sent].
      now rewrite <- app_assoc.
    + constructor; [now apply holding_sent|exact Hcur|exact Hrec].
    + exact Hsz.
  - unfold set_data_source. cbn [format_value].
    change ("DAT:SOU " ++ name self) with ("DAT:SOU" ++ String " " (name self)).
    erewrite bind_ok by (apply sendcmd_stored; reflexivity).
    unfold ret at 1. cbn [device inbuf sent].
    erewrite read_waveform_body_binary with (sel := name self) (a := a).
    + cbn [leave device inbuf sent]. unfold set_data_source.
      cbn [format_value].
      change ("DAT:SOU " ++ name old) with ("DAT:SOU" ++ String " " (name old)).
      rewrite sendcmd_stored by reflexivity.
      eexists; split; [reflexivity|].
      split; [|reflexivity]. unfold wrote. cbn [sent].
      rewrite <- !app_assoc. reflexivity.
    + constructor.
      * apply holding_selected with (lk := lk). exact H.
      * reflexivity.
      * exact Hrec.
    + exact Hsz.
Qed.

(** *** What a successful read tells of the instrument *)

Lemma bind_inv {A B} (c : M A) (k : A -> M B) lk b lk2 :
  bind c k lk = (Ok b, lk2) ->
  exists a lk1, c lk = (Ok a, lk1) /\ k a lk1 = (Ok b, lk2).
Proof.
  unfold bind. destruct (c lk) as [[a|e] lk1]; [eauto|discriminate].
Qed.

Lemma bind_inv_fst {A B} (c : M A) (k : A -> M B) lk b :
  fst (bind c k lk) = Ok b ->
  exists a lk1, c lk = (Ok a, lk1) /\ fst (k a lk1) = Ok b.
Proof.
  unfold bind. destruct (c lk) as [[a|e] lk1]; [eauto|discriminate].
Qed.

Lemma convert_inv {A} (o : option A) lk a lk1 :
  convert o lk = (Ok a, lk1) -> o = Some a /\ lk1 = lk.
Proof. destruct o; cbn; [intros [= -> ->]; auto|discriminate]. Qed.

Lemma split_header_whole s :
  snd (split_header s) = None -> all_chars not_blank s = true.
Proof.
  induction s as [|c s IH]; cbn; [reflexivity|].
  unfold not_blank at 1. destruct (Ascii.eqb c " "); [discriminate|].
  destruct (split_header s) as [h v]. cbn in *. exact IH.
Qed.

(** An answered query: the command holds no blank, and the answer is the
    value the instrument holds for its header. *)
Lemma query_inv cmd lk v lk1 :
  inbuf lk = [] ->
  String.eqb cmd "CURVE?" = false ->
  query cmd lk = (Ok v, lk1) ->
  lk1 = {| device := device lk; inbuf := []; sent := sent lk ++ [cmd] |} /\
  all_chars not_blank cmd = true /\
  exists h, query_header cmd = Some h /\ regs (device lk) h = Some v.
Proof.
  intros Hi Hc. unfold query, bind, sendcmd, read_line, react.
  rewrite Hc, Hi.
  pose proof (split_header_whole cmd) as W.
  destruct (split_header cmd) as [h0 [v0|]]; cbn [inbuf app]; [discriminate|].
  destruct (query_header cmd) as [h|]; cbn [inbuf app]; [|discriminate].
  destruct (regs (device lk) h) as [v'|] eqn:R; cbn [inbuf app device sent];
    [|discriminate].
  intros [= -> <-]. split; [reflexivity|]. split; [now apply W|]. eauto.
Qed.

Lemma wfmp_query_inv nm field v lk lk1 :
  inbuf lk = [] ->
  query ("WFMP:" ++ nm ++ ":" ++ field ++ "?") lk = (Ok v, lk1) ->
  lk1 = {| device := device lk; inbuf := [];
           sent := sent lk ++ ["WFMP:" ++ nm ++ ":" ++ field ++ "?"] |} /\
  all_chars not_blank nm = true /\
  regs (device lk) ("WFMP:" ++ nm ++ ":" ++ field) = Some v.
Proof.
  intros Hi Hq.
  apply query_inv in Hq; [|exact Hi|reflexivity].
  destruct Hq as (-> & Hb & h & Hh & Hr).
  split; [reflexivity|].
  assert (E : "WFMP:" ++ nm ++ ":" ++ field ++ "?"
              = ("WFMP:" ++ nm ++ ":" ++ field) ++ "?").
  { cbn [append]. do 5 f_equal.
    now rewrite (app_assoc_text nm (String ":" field) "?"). }
  rewrite E, query_header_mark in Hh. injection Hh as <-.
  split; [|exact Hr].
  cbn [append all_chars] in Hb.
  do 5 (apply andb_true_iff in Hb as [_ Hb]).
  rewrite all_chars_app in Hb.
  now apply andb_true_iff in Hb as [Hb _].
Qed.

Lemma binblockread_nothing w lk :
  inbuf lk = [] -> binblockread w lk = (Raise IOError, lk).
Proof.
  intros Hi. unfold binblockread, bind, read_raw. rewrite Hi. reflexivity.
Qed.

(** The instrument answers [CURVE?] in binary with nothing, or with the
    block of its record at a width of 1 or 2 that the block can carry. *)
Lemma curve_reply_binary d sel t w :
  regs d "DAT:SOU" = Some sel ->
  regs d "DAT:ENC" = Some "RIB" ->
  regs d "DATA:WIDTH" = Some t ->
  py_int t = Some w ->
  curve_reply d = [] \/
  exists n,
    (n = 1 \/ n = 2)%nat /\ w = Z.of_nat n /\
    (String.length (str_of_int (Z.of_nat
       (String.length (concat_map (be_bytes n) (waveform d sel))))) <= 9)%nat /\
    curve_reply d = [binary_block (concat_map (be_bytes n) (waveform d sel)) ++ LF].
Proof.
  intros Hs He Ht Hw. unfold curve_reply, device_width.
  rewrite Hs, He, Ht, Hw. cbn [String.eqb Ascii.eqb Bool.eqb].
  destruct (Z.eqb_spec w 1) as [->|H1]; [|destruct (Z.eqb_spec w 2) as [->|H2]];
    cbn [orb]; [| |now left].
  - destruct (Nat.leb_spec
      (String.length (str_of_int (Z.of_nat (String.length
         (concat_map (be_bytes (Z.to_nat 1)) (waveform d sel)))))) 9);
      [|now left].
    right. exists 1%nat. repeat split; auto.
  - destruct (Nat.leb_spec
      (String.length (str_of_int (Z.of_nat (String.length
         (concat_map (be_bytes (Z.to_nat 2)) (waveform d sel)))))) 9);
      [|now left].
    right. exists 2%nat. repeat split; auto.
Qed.

Lemma read_raw_samples_binary_inv lk sel raw lk1 :
  inbuf lk = [] ->
  regs (device lk) "DAT:SOU" = Some sel ->
  read_raw_samples true lk = (Ok raw, lk1) ->
  exists n t,
    regs (device lk) "DATA:WIDTH" = Some t /\
    py_int t = Some (Z.of_nat n) /\
    (n = 1 \/ n = 2)%nat /\
    (String.length (str_of_int (Z.of_nat (String.length
       (concat_map (be_bytes n) (waveform (device lk) sel))))) <= 9)%nat.
Proof.
  intros Hi Hsel H. unfold read_raw_samples in H. cbn [negb] in H.
  change "DAT:ENC RIB" with ("DAT:ENC" ++ String " " "RIB") in H.
  erewrite bind_ok in H by (apply sendcmd_stored; reflexivity).
  apply bind_inv in H as (w & lk2 & Hw & H).
  unfold Tek.data_width in Hw.
  apply bind_inv in Hw as (t & lk3 & Hq & Hw).
  apply query_inv in Hq as (-> & _ & h & [= <-] & Ht);
    [|exact Hi|reflexivity].
  apply convert_inv in Hw as [Hw ->].
  cbn [device set_reg regs String.eqb Ascii.eqb Bool.eqb] in Ht.
  set (d1 := set_reg "DAT:ENC" "RIB" (device lk)) in *.
  destruct (curve_reply_binary d1 sel t w) as [E|(n & Hn & -> & Hfit & E)];
    try assumption; try reflexivity.
  - exfalso.
    erewrite bind_ok in H
      by (unfold sendcmd, react;
          cbn [String.eqb Ascii.eqb Bool.eqb device inbuf sent];
          fold d1; rewrite E; reflexivity).
    erewrite bind_raise in H by (apply binblockread_nothing; reflexivity).
    discriminate.
  - exists n, t. auto.
Qed.

Ltac run_step H x lk' E :=
  apply bind_inv_fst in H as (x & lk' & E & H).

(** A binary read that returned found the instrument prepared. *)
Lemma read_waveform_body_binary_inv lk self sel x y :
  inbuf lk = [] ->
  regs (device lk) "DAT:SOU" = Some sel ->
  fst (read_waveform_body self true lk) = Ok (x, y) ->
  exists a, Prepared lk self sel a /\ sizable (points a) = true.
Proof.
  intros Hi Hsel H. unfold read_waveform_body in H.
  run_step H raw lk1 Hraw.
  destruct (read_raw_samples_binary_inv lk sel raw lk1 Hi Hsel Hraw)
    as (n & t & Hw & Hwt & Hn & Hfit).
  rewrite (read_raw_samples_run lk sel n t Hi Hsel Hw Hwt Hn Hfit) in Hraw.
  injection Hraw as <- <-.
  run_step H to lk2 Hq.
  apply (wfmp_query_inv (name self) "YOF") in Hq as (-> & Hname & Ho);
    [|reflexivity].
  run_step H tm lk3 Hq.
  apply (wfmp_query_inv (name self) "YMU") in Hq as (-> & _ & Hm);
    [|reflexivity].
  run_step H tz lk4 Hq.
  apply (wfmp_query_inv (name self) "YZE") in Hq as (-> & _ & Hz);
    [|reflexivity].
  run_step H o lk5 Hc. apply convert_inv in Hc as [Hpo ->].
  run_step H y1 lk5 Hc. cbn [nd_op ret] in Hc. injection Hc as <- <-.
  run_step H m lk5 Hc. apply convert_inv in Hc as [Hpm ->].
  run_step H y2 lk5 Hc. cbn [nd_op ret] in Hc. injection Hc as <- <-.
  run_step H z lk5 Hc. apply convert_inv in Hc as [Hpz ->].
  run_step H y3 lk5 Hc. cbn [nd_op ret] in Hc. injection Hc as <- <-.
  run_step H tx0 lk5 Hq.
  apply query_inv in Hq as (-> & _ & h & [= <-] & Hx0);
    [|reflexivity|reflexivity].
  run_step H tdx lk5 Hq.
  apply query_inv in Hq as (-> & _ & h & [= <-] & Hdx);
    [|reflexivity|reflexivity].
  run_step H tp lk5 Hq.
  apply (wfmp_query_inv (name self) "NR_P") in Hq as (-> & _ & Hp);
    [|reflexivity].
  run_step H p lk5 Hc. apply convert_inv in Hc as [Hpp ->].
  run_step H x1 lk5 Hc. unfold np_arange in Hc.
  destruct (ceil p) as [c|] eqn:Hceil; [|discriminate Hc].
  destruct (sizable c) eqn:Hsz; [|discriminate Hc].
  run_step H dx lk6 Hc'. apply convert_inv in Hc' as [Hpdx ->].
  run_step H x2 lk7 Hc'. clear Hc'.
  run_step H x0 lk8 Hc'. apply convert_inv in Hc' as [Hpx0 _].
  cbn [device set_reg regs String.eqb Ascii.eqb Bool.eqb] in *.
  exists {| width := n; samples := waveform (device lk) sel;
            yoffs := o; ymult := m; yzero := z;
            xzero := x0; xincr := dx; ptcnt := p; points := c |}.
  split; [|exact Hsz].
  constructor; [constructor|exact Hsel|reflexivity]; cbn; eauto.
Qed.

Lemma holding_unselected lk self a v snt :
  inbuf lk = [] ->
  Holding {| device := set_reg "DAT:SOU" v (device lk); inbuf := [];
             sent := snt |} self a ->
  Holding lk self a.
Proof.
  intros Hi' [Hi Hn Hw Hwv Hfit Ho Hm Hz Hx0 Hdx Hp Hc].
  constructor; assumption.
Qed.

Lemma holding_unsent lk self a snt :
  inbuf lk = [] ->
  Holding {| device := device lk; inbuf := []; sent := snt |} self a ->
  Holding lk self a.
Proof.
  intros Hi' [Hi Hn Hw Hwv Hfit Ho Hm Hz Hx0 Hdx Hp Hc].
  constructor; assumption.
Qed.

(** A binary read that returned, on a link with nothing pending, found
    the instrument holding an acquisition, and returned its times and
    voltages. *)
Lemma read_waveform_binary_inv lk self x y :
  inbuf lk = [] ->
  fst (read_waveform self true lk) = Ok (x, y) ->
  exists cur old a,
    Holding lk self a /\
    sizable (points a) = true /\
    regs (device lk) "DAT:SOU" = Some cur /\
    source_named cur = Ok old /\
    waveform (device lk) (selection cur old self) = samples a /\
    x = FloatArray (times a) /\ y = FloatArray (voltages a).
Proof.
  intros Hi H0. pose proof H0 as H.
  unfold read_waveform, with_source in H.
  destruct (enter self lk) as [[o|e] lk1] eqn:He; [|discriminate H].
  unfold enter in He. apply bind_inv in He as (old & lk0 & Hds & He).
  assert (Hcur : exists cur, regs (device lk) "DAT:SOU" = Some cur).
  { unfold data_source in Hds. apply bind_inv in Hds as (nm & lk' & Hq & _).
    apply query_inv in Hq as (_ & _ & h & [= <-] & Hr);
      [eauto|exact Hi|reflexivity]. }
  destruct Hcur as [cur Hcur].
  rewrite (data_source_run lk cur Hi Hcur) in Hds.
  fold (source_named cur) in Hds. injection Hds as Hold <-.
  assert (P : exists a, (Prepared lk1 self (selection cur old self) a /\
                         sizable (points a) = true) /\
                        (lk1 = {| device := device lk; inbuf := [];
                                  sent := sent lk ++ ["DAT:SOU?"] |} \/
                         exists snt,
                           lk1 = {| device := set_reg "DAT:SOU" (name self)
                                                (device lk);
                                    inbuf := []; sent := snt |})).
  { unfold selection.
    destruct (String.eqb (name old) (name self)); cbn [negb] in He.
    - injection He as <- <-.
      destruct (read_waveform_body self true _) as [r lk2] eqn:Hb.
      cbn [leave ret] in H. cbn [fst] in H. subst r.
      destruct (read_waveform_body_binary_inv
                  {| device := device lk; inbuf := [];
                     sent := sent lk ++ ["DAT:SOU?"] |}
                  self cur x y eq_refl Hcur)
        as [a Pa]; [now rewrite Hb|].
      exists a. split; [exact Pa|now left].
    - unfold set_data_source in He. cbn [format_value] in He.
      change ("DAT:SOU " ++ name self)
        with ("DAT:SOU" ++ String " " (name self)) in He.
      erewrite bind_ok in He by (apply sendcmd_stored; reflexivity).
      injection He as <- <-.
      destruct (read_waveform_body self true _) as [r lk2] eqn:Hb.
      assert (Hr : r = Ok (x, y)).
      { destruct (leave (Some old) lk2) as [[[]|e] lk3];
          [exact H|discriminate H]. }
      subst r.
      match type of Hb with
      | read_waveform_body _ _ ?l = _ =>
          destruct (read_waveform_body_binary_inv l self (name self) x y
                      eq_refl eq_refl) as [a Pa]; [now rewrite Hb|]
      end.
      exists a. split; [exact Pa|right; eauto]. }
  destruct P as (a & ([Hh Hs Hr] & Hsz) & Hlk).
  assert (Hol : Holding lk self a /\
                waveform (device lk) (selection cur old self) = samples a).
  { destruct Hlk as [-> | [snt ->]].
    - split; [now apply holding_unsent with (snt := (sent lk ++ ["DAT:SOU?"])%list)
             |exact Hr].
    - split; [now apply holding_unselected in Hh|exact Hr]. }
  destruct Hol as [Hol Hrec].
  exists cur, old, a. repeat (split; [assumption|]).
  destruct (read_waveform_binary lk self cur old a Hol Hsz Hcur Hold Hrec)
    as (lk9 & R & _ & _).
  rewrite R in H0. now injection H0 as <- <-.
Qed.

End Acquisition.

(** ** The ASCII path *)

Section AsciiPath.

(** A link with nothing pending whose instrument holds the texts of
    [table] and the record [record] for every source. *)
Definition bench (table : list (string * string)) (record : list Z) : Link :=
  {| device := {| regs := fun h => lookup h table;
                  waveform := fun _ => record |};
     inbuf := []; sent := [] |}.

(** The instrument of the acquisition scenario: channel 1 selected,
    two-byte samples 10, 20, 30, offset 5, multiplier 2.0, zero 0.0,
    three points, one microsecond apart from time zero. *)
Definition scenario : Link :=
  bench [("DAT:SOU", "CH1"); ("DATA:WIDTH", "2");
         ("WFMP:CH2:YOF", "5"); ("WFMP:CH2:YMU", "2.0");
         ("WFMP:CH2:YZE", "0.0"); ("WFMP:XZE", "0");
         ("WFMP:XIN", "1e-6"); ("WFMP:CH2:NR_P", "3")]
        [10; 20; 30].

(** The line the instrument sends for its record once ASCII encoding
    and the source [CH2] are selected. *)
Definition device_replies_ascii (lk : Link) : option string :=
  match curve_reply (set_reg "DAT:ENC" "ASCI"
                       (set_reg "DAT:SOU" "CH2" (device lk))) with
  | [line] => Some line
  | _ => None
  end.

Lemma body_ascii_raises self lk :
  exists e lk1, read_waveform_body self false lk = (Raise e, lk1).
Proof.
  unfold read_waveform_body, read_raw_samples. cbn [negb].
  unfold bind.
  destruct (sendcmd "DAT:ENC ASCI" lk) as [[[]|e] lk0]; [|eauto].
  destruct (query "CURVE?" lk0) as [[raw|e] lk1]; [|eauto].
  cbn [ret].
  destruct (query _ lk1) as [[yoffs|e] lk2]; [|eauto].
  destruct (query _ lk2) as [[ymult|e] lk3]; [|eauto].
  destruct (query _ lk3) as [[yzero|e] lk4]; [|eauto].
  destruct (py_float yoffs) as [o|]; cbn [convert ret raise nd_op]; eauto.
Qed.

(** C3.  The ASCII path never returns: whatever the source and the state
    of the link, [read_waveform(bin_format=False)] ends with an
    exception, because the samples read from the reply stay inside an
    iterator that the array arithmetic cannot use.  On the instrument
    of the scenario the binary path returns the times and voltages
    while the ASCII path, for the same record, raises [TypeError]. *)
Theorem ascii_path_never_returns :
  (forall self lk, exists e, fst (read_waveform self false lk) = Raise e) /\
  fst (read_waveform (_TekTDS224Channel 1) true scenario) =
    Ok (FloatArray [of_Z 0; of_decimal false 1 (-6); of_decimal false 2 (-6)],
        FloatArray [of_Z 10; of_Z 30; of_Z 50]) /\
  device_replies_ascii scenario = Some "10,20,30" /\
  fst (read_waveform (_TekTDS224Channel 1) false scenario) = Raise TypeError.
Proof.
  split; [|split; [|split]].
  - intros self lk. unfold read_waveform, with_source.
    destruct (enter self lk) as [[old|e] lk1]; [|cbn; eauto].
    destruct (body_ascii_raises self lk1) as (e & lk2 & ->).
    destruct (leave old lk2) as [[[]|e'] lk3]; cbn; eauto.
  - vm_compute; reflexivity.
  - vm_compute; reflexivity.
  - vm_compute; reflexivity.
Qed.

End AsciiPath.

(** ** Rescaling, time axis and lengths *)

Section Waveform.

(** The value a run returned, if it returned. *)
Definition returned {A} (r : result A * Link) : option A :=
  match fst r with
  | Ok a => Some a
  | Raise _ => None
  end.


(** C1.  With [bin_format=False] the rescaling is never carried out: on the
    instrument of the scenario (record 10, 20, 30 sent as the line
    [10,20,30], offset 5, multiplier 2.0, zero 0.0) the subtraction of
    the offset raises [TypeError], where the rescale law gives the
    voltages 10.0, 30.0, 50.0, which the binary path returns. *)
Theorem ascii_rescale_raises :
  fst (read_raw_samples false
         {| device := set_reg "DAT:SOU" "CH2" (device scenario);
            inbuf := []; sent := [] |}) =
    Ok (ObjectScalar ["10"; "20"; "30"]) /\
  (forall o, fst (nd_op sub (ObjectScalar ["10"; "20"; "30"]) o idle)
             = Raise TypeError) /\
  fst (read_waveform (_TekTDS224Channel 1) false scenario) = Raise TypeError /\
  map (fun r => add (mul (sub (of_Z r) (of_Z 5)) (of_Z 2)) (of_Z 0))
      [10; 20; 30] = [of_Z 10; of_Z 30; of_Z 50] /\
  option_map snd (returned (read_waveform (_TekTDS224Channel 1) true scenario))
    = Some (FloatArray [of_Z 10; of_Z 30; of_Z 50]).
Proof.
  split; [|split; [|split; [|split]]].
  - vm_compute; reflexivity.
  - intros o. reflexivity.
  - vm_compute; reflexivity.
  - vm_compute; reflexivity.
  - vm_compute; reflexivity.
Qed.

(** A float that denotes an integer has that integer for ceiling. *)
Lemma ceil_exact p n : to_Z_exact p = Some n -> ceil p = Some n.
Proof.
  destruct p as [s| | |s m e]; cbn; try discriminate; [easy|].
  destruct (Z.leb_spec 0 e) as [|He]; [easy|].
  destruct (Z.eqb_spec (Z.pos m mod 2 ^ (- e)) 0) as [Hm|]; [|discriminate].
  intros [= <-]. f_equal.
  assert (Hp : 0 < 2 ^ (- e)) by (apply Z.pow_pos_nonneg; lia).
  apply Z.div_exact in Hm; [|lia].
  set (q := Z.pos m / 2 ^ (- e)) in *.
  destruct s; cbn [negb cond_Zopp].
  - reflexivity.
  - replace (- Z.pos m) with ((- q) * 2 ^ (- e)) by lia.
    rewrite Z.div_mul by lia. lia.
Qed.



(** The instrument of the scenario, reporting the point count [count]. *)
Definition reporting (count : string) : Link :=
  bench [("DAT:SOU", "CH1"); ("DATA:WIDTH", "2");
         ("WFMP:CH2:YOF", "5"); ("WFMP:CH2:YMU", "2.0");
         ("WFMP:CH2:YZE", "0.0"); ("WFMP:XZE", "0");
         ("WFMP:XIN", "1e-6"); ("WFMP:CH2:NR_P", count)]
        [10; 20; 30].


(** The ASCII read of any source on any link ends with an exception. *)
Lemma read_ascii_raises self lk x y :
  fst (read_waveform self false lk) = Ok (x, y) -> False.
Proof.
  unfold read_waveform, with_source. intros H.
  destruct (enter self lk) as [[old|e] lk1]; [|discriminate H].
  destruct (body_ascii_raises self lk1) as (e & lk2 & E).
  rewrite E in H.
  destruct (leave old lk2) as [[[]|e'] lk3]; discriminate H.
Qed.

(** The elements of the time axis. *)
Lemma times_nth a i :
  (i < Z.to_nat (points a))%nat ->
  nth_error (times a) i =
    Some (add (mul (of_Z (Z.of_nat i)) (xincr a)) (xzero a)).
Proof.
  intros Hi. unfold times. rewrite nth_error_map.
  rewrite (nth_error_nth' _ 0%nat) by (now rewrite length_seq).
  now rewrite seq_nth.
Qed.

Lemma times_length a : List.length (times a) = Z.to_nat (points a).
Proof. unfold times. now rewrite length_map, length_seq. Qed.

(** C2 as stated fails: an instrument that reports the point count
    [1e19], which is the whole number [10^19], gets no time sequence
    from a binary read, as [np.arange] refuses the length and the read
    ends with [ValueError]; and a read that returns need not return as
    many times as the count reported: none for the count [-2], three
    for the count [2.5]. *)
Lemma count_is_not_length :
  option_map to_Z_exact (py_float "1e19") = Some (Some (10 ^ 19)) /\
  fst (read_waveform (_TekTDS224Channel 1) true (reporting "1e19"))
    = Raise ValueError /\
  option_map to_Z_exact (py_float "-2") = Some (Some (-2)) /\
  option_map fst
    (returned (read_waveform (_TekTDS224Channel 1) true (reporting "-2")))
    = Some (FloatArray []) /\
  option_map fst
    (returned (read_waveform (_TekTDS224Channel 1) true (reporting "2.5")))
    = Some (FloatArray [of_Z 0; of_decimal false 1 (-6);
                        of_decimal false 2 (-6)]).
Proof. repeat split; vm_compute; reflexivity. Qed.

(** C2, as amended.  Whatever the transfer format asked for, a read that
    returns, on a link that had nothing pending, found the instrument
    holding the texts of a point count, a horizontal increment and a
    horizontal zero that read as floats, with the count, rounded up to
    the whole number [points], in the range numpy sizes.  The time
    sequence returned has [points] elements, none when [points] is
    negative, so [n] elements when the count denotes the natural number
    [n]; and its element at every index [i] is [i], as a float, times
    the increment, plus the zero. *)
Theorem time_axis (lk : Link) (self : DataSource) (bin_format : bool)
        (x y : ndarray) :
  inbuf lk = [] ->
  fst (read_waveform self bin_format lk) = Ok (x, y) ->
  exists a t,
    Holding lk self a /\
    sizable (points a) = true /\
    x = FloatArray t /\
    List.length t = Z.to_nat (points a) /\
    (forall n : nat,
       to_Z_exact (ptcnt a) = Some (Z.of_nat n) -> List.length t = n) /\
    (forall i, (i < List.length t)%nat ->
       nth_error t i =
         Some (add (mul (of_Z (Z.of_nat i)) (xincr a)) (xzero a))).
Proof.
  intros Hi H. destruct bin_format;
    [|exfalso; exact (read_ascii_raises self lk x y H)].
  destruct (read_waveform_binary_inv lk self x y Hi H)
    as (cur & old & a & Hh & Hsz & _ & _ & _ & -> & _).
  exists a, (times a). rewrite times_length.
  repeat (split; [assumption || reflexivity|]). split.
  - intros n Hn. pose proof (points_counted _ _ _ Hh) as Hc.
    rewrite (ceil_exact _ _ Hn) in Hc. injection Hc as <-.
    apply Nat2Z.id.
  - intros i Hlt. now apply times_nth.
Qed.

Lemma time_axis_witness :
  exists a t,
    Holding scenario (_TekTDS224Channel 1) a /\
    sizable (points a) = true /\
    FloatArray [of_Z 0; of_decimal false 1 (-6); of_decimal false 2 (-6)]
      = FloatArray t /\
    List.length t = Z.to_nat (points a) /\
    (forall n : nat,
       to_Z_exact (ptcnt a) = Some (Z.of_nat n) -> List.length t = n) /\
    (forall i, (i < List.length t)%nat ->
       nth_error t i =
         Some (add (mul (of_Z (Z.of_nat i)) (xincr a)) (xzero a))).
Proof.
  apply (time_axis scenario (_TekTDS224Channel 1) true
           (FloatArray [of_Z 0; of_decimal false 1 (-6); of_decimal false 2 (-6)])
           (FloatArray [of_Z 10; of_Z 30; of_Z 50])).
  - reflexivity.
  - vm_compute. reflexivity.
Defined.

(** The instrument of the scenario, reporting five points for its
    record of three samples. *)
Definition five_points : Link :=
  bench [("DAT:SOU", "CH1"); ("DATA:WIDTH", "2");
         ("WFMP:CH2:YOF", "5"); ("WFMP:CH2:YMU", "2.0");
         ("WFMP:CH2:YZE", "0.0"); ("WFMP:XZE", "0");
         ("WFMP:XIN", "1e-6"); ("WFMP:CH2:NR_P", "5")]
        [10; 20; 30].

(** C4 as stated fails: the read succeeds, the time sequence has five
    elements, the point count reported, and the voltage sequence the
    three of the record. *)
Lemma lengths_differ :
  exists t v,
    fst (read_waveform (_TekTDS224Channel 1) true five_points)
      = Ok (FloatArray t, FloatArray v) /\
    List.length t = 5%nat /\ List.length v = 3%nat /\
    List.length t <> List.length v.
Proof.
  eexists; eexists. split; [vm_compute; reflexivity|].
  cbn. repeat split; discriminate || reflexivity.
Qed.

(** C4, as amended.  A read that returns, on a link that had nothing
    pending, returns a time sequence with as many elements as the point
    count the instrument reports, rounded up to the whole number
    [points] and taken as zero when negative, and a voltage sequence
    with as many elements as the record of the source selected during
    the read has samples; the two lengths are equal exactly when that
    number of points, zero for a negative count, is the number of
    samples of the record. *)
Theorem waveform_lengths (lk : Link) (self : DataSource) (bin_format : bool)
        (x y : ndarray) :
  inbuf lk = [] ->
  fst (read_waveform self bin_format lk) = Ok (x, y) ->
  exists cur old a t v,
    Holding lk self a /\
    regs (device lk) "DAT:SOU" = Some cur /\
    source_named cur = Ok old /\
    samples a = waveform (device lk) (selection cur old self) /\
    x = FloatArray t /\ y = FloatArray v /\
    Z.of_nat (List.length t) = Z.max 0 (points a) /\
    List.length v = List.length (samples a) /\
    (List.length t = List.length v <->
     Z.max 0 (points a) = Z.of_nat (List.length (samples a))).
Proof.
  intros Hi H. destruct bin_format;
    [|exfalso; exact (read_ascii_raises self lk x y H)].
  destruct (read_waveform_binary_inv lk self x y Hi H)
    as (cur & old & a & Hh & Hsz & Hcur & Hold & Hrec & -> & ->).
  exists cur, old, a, (times a), (voltages a).
  rewrite times_length. unfold voltages. rewrite length_map.
  repeat (split; [assumption || reflexivity || (symmetry; assumption)|]).
  split; [lia|]. split; [reflexivity|]. lia.
Qed.

Lemma waveform_lengths_witness :
  exists cur old a t v,
    Holding scenario (_TekTDS224Channel 1) a /\
    regs (device scenario) "DAT:SOU" = Some cur /\
    source_named cur = Ok old /\
    samples a
      = waveform (device scenario) (selection cur old (_TekTDS224Channel 1)) /\
    FloatArray [of_Z 0; of_decimal false 1 (-6); of_decimal false 2 (-6)]
      = FloatArray t /\
    FloatArray [of_Z 10; of_Z 30; of_Z 50] = FloatArray v /\
    Z.of_nat (List.length t) = Z.max 0 (points a) /\
    List.length v = List.length (samples a) /\
    (List.length t = List.length v <->
     Z.max 0 (points a) = Z.of_nat (List.length (samples a))).
Proof.
  apply (waveform_lengths scenario (_TekTDS224Channel 1) true
           (FloatArray [of_Z 0; of_decimal false 1 (-6); of_decimal false 2 (-6)])
           (FloatArray [of_Z 10; of_Z 30; of_Z 50])).
  - reflexivity.
  - vm_compute. reflexivity.
Defined.

End Waveform.

(* ===================================================================== *)
(** * Further properties of the driver *)
(* ===================================================================== *)

(** ** Reading waveforms *)

Section Reads.


(** X2.  Whatever the transfer format asked for, a read that returns on a
    link with nothing pending was a binary read of an instrument holding
    an acquisition whose samples are the record of the source selected
    during the read, and what it returns obeys both laws: as many times
    as the point count, [time[i] = i * increment + zero], as many
    voltages as the record has samples, [voltage[i] = (raw[i] - offset) *
    multiplier + zero] for the sample [raw[i]] decoded at the data
    width. *)
Theorem returned_waveform_laws (lk : Link) (self : DataSource)
        (bin_format : bool) (x y : ndarray) :
  inbuf lk = [] ->
  fst (read_waveform self bin_format lk) = Ok (x, y) ->
  bin_format = true /\
  exists cur old a t v,
    Holding lk self a /\
    regs (device lk) "DAT:SOU" = Some cur /\
    source_named cur = Ok old /\
    samples a = waveform (device lk) (selection cur old self) /\
    x = FloatArray t /\ y = FloatArray v /\
    List.length t = Z.to_nat (points a) /\
    List.length v
      = List.length (waveform (device lk) (selection cur old self)) /\
    (forall i, (i < Z.to_nat (points a))%nat ->
       nth_error t i = Some (add (mul (of_Z (Z.of_nat i)) (xincr a)) (xzero a))) /\
    (forall i r,
       nth_error (waveform (device lk) (selection cur old self)) i = Some r ->
       nth_error v i =
         Some (add (mul (sub (of_Z (wrap (width a) r)) (yoffs a)) (ymult a))
                   (yzero a))).
Proof.
  intros Hi H. destruct bin_format;
    [|exfalso; exact (read_ascii_raises self lk x y H)].
  split; [reflexivity|].
  destruct (read_waveform_binary_inv lk self x y Hi H)
    as (cur & old & a & Hh & _ & Hcur & Hold & Hrec & -> & ->).
  exists cur, old, a, (times a), (voltages a).
  rewrite times_length, Hrec. unfold voltages. rewrite length_map.
  repeat (split; [assumption || reflexivity|]). split.
  - intros i Hlt. now apply times_nth.
  - intros i r Hr. now rewrite nth_error_map, Hr.
Qed.

Lemma returned_waveform_laws_witness :
  true = true /\
  exists cur old a t v,
    Holding scenario (_TekTDS224Channel 1) a /\
    regs (device scenario) "DAT:SOU" = Some cur /\
    source_named cur = Ok old /\
    samples a
      = waveform (device scenario) (selection cur old (_TekTDS224Channel 1)) /\
    FloatArray [of_Z 0; of_decimal false 1 (-6); of_decimal false 2 (-6)]
      = FloatArray t /\
    FloatArray [of_Z 10; of_Z 30; of_Z 50] = FloatArray v /\
    List.length t = Z.to_nat (points a) /\
    List.length v
      = List.length
          (waveform (device scenario)
             (selection cur old (_TekTDS224Channel 1))) /\
    (forall i, (i < Z.to_nat (points a))%nat ->
       nth_error t i = Some (add (mul (of_Z (Z.of_nat i)) (xincr a)) (xzero a))) /\
    (forall i r,
       nth_error (waveform (device scenario)
                    (selection cur old (_TekTDS224Channel 1))) i = Some r ->
       nth_error v i =
         Some (add (mul (sub (of_Z (wrap (width a) r)) (yoffs a)) (ymult a))
                   (yzero a))).
Proof.
  apply (returned_waveform_laws scenario (_TekTDS224Channel 1) true
           (FloatArray [of_Z 0; of_decimal false 1 (-6); of_decimal false 2 (-6)])
           (FloatArray [of_Z 10; of_Z 30; of_Z 50])).
  - reflexivity.
  - vm_compute. reflexivity.
Defined.







(** X5.  When the reply to the point count query reads as NaN or as an
    infinity, the read ends with an exception: numpy cannot size the time
    axis. *)
Theorem unsizable_count (lk : Link) (self : DataSource) (t : string)
        (p : float) :
  inbuf lk = [] ->
  regs (device lk) ("WFMP:" ++ name self ++ ":NR_P") = Some t ->
  py_float t = Some p ->
  p = S754_nan \/ (exists s, p = S754_infinity s) ->
  exists e, fst (read_waveform self true lk) = Raise e.
Proof.
  intros Hi Hr Hp Hnan.
  destruct (fst (read_waveform self true lk)) as [[x y]|e] eqn:H; [|eauto].
  exfalso.
  destruct (read_waveform_binary_inv lk self x y Hi H)
    as (cur & old & a & Hh & _).
  destruct (ptcnt_held _ _ _ Hh) as (t' & Hr' & Hp').
  rewrite Hr in Hr'. injection Hr' as <-.
  rewrite Hp in Hp'. injection Hp' as ->.
  pose proof (points_counted _ _ _ Hh) as Hc.
  destruct Hnan as [E|[s E]]; rewrite E in Hc; discriminate Hc.
Qed.

Lemma unsizable_count_witness :
  exists e,
    fst (read_waveform (_TekTDS224Channel 1) true (reporting "nan")) = Raise e.
Proof.
  apply (unsizable_count (reporting "nan") (_TekTDS224Channel 1) "nan"
           S754_nan eq_refl eq_refl eq_refl (or_introl eq_refl)).
Defined.

End Reads.

(** ** Instrument-wide settings *)

Section Settings.



Lemma py_int_minus c s :
  all_chars is_digit (String c s) = true ->
  py_int (String "-" (String c s))
  = option_map Z.opp (int_of_digits (String c s)).
Proof.
  intros Hd. unfold py_int, strip.
  change (lstrip (String "-" (String c s))) with (String "-" (String c s)).
  change (rstrip (String "-" (String c s)))
    with (match rstrip (String c s) with
          | EmptyString => String "-" EmptyString
          | r => String "-" r
          end).
  rewrite (rstrip_digits _ Hd).
  unfold ungroup.
  change (ungroup_from false (String "-" (String c s)))
    with (option_map (String "-") (ungroup_from false (String c s))).
  rewrite (ungroup_digits _ _ Hd). reflexivity.
Qed.

(** [int] reads back what [format] wrote, whatever the sign. *)
Lemma py_int_str_of_int_signed n : py_int (str_of_int n) = Some n.
Proof.
  destruct n as [|p|p]; [reflexivity|now apply py_int_str_of_int|].
  pose proof (py_int_str_of_int (Z.pos p) ltac:(lia)) as H.
  unfold str_of_int in *. cbn [Z.to_int NilZero.string_of_int] in *.
  assert (Hd : all_chars is_digit (NilZero.string_of_uint (Pos.to_uint p)) = true).
  { destruct (Pos.to_uint p) eqn:U; try reflexivity;
      rewrite <- U; unfold NilZero.string_of_uint; rewrite U;
      rewrite <- U; apply uint_text_digits. }
  destruct (NilZero.string_of_uint (Pos.to_uint p)) as [|c s] eqn:T.
  - cbn in H. discriminate H.
  - rewrite (py_int_digits c s Hd) in H.
    rewrite (py_int_minus c s Hd), H. reflexivity.
Qed.

Lemma startswith_CH t : startswith "CH" ("CH" ++ t) = true.
Proof. destruct t; reflexivity. Qed.

(** X7.  Selecting a data source and asking for the selected one gives the
    same object back: for every channel, and for every other source
    whose name does not start with [CH]. *)
Theorem data_source_round_trip (lk : Link) :
  inbuf lk = [] ->
  (forall idx, exists lk1,
     set_data_source (inr (_TekTDS224Channel idx)) lk = (Ok tt, lk1) /\
     fst (data_source lk1) = Ok (_TekTDS224Channel idx)) /\
  (forall nm, startswith "CH" nm = false -> exists lk1,
     set_data_source (inr (_TekTDS224DataSource nm)) lk = (Ok tt, lk1) /\
     fst (data_source lk1) = Ok (_TekTDS224DataSource nm)).
Proof.
  intros Hi.
  assert (Step : forall d,
            exists lk1, set_data_source (inr d) lk = (Ok tt, lk1) /\
                        inbuf lk1 = [] /\
                        regs (device lk1) "DAT:SOU" = Some (name d)).
  { intros d. unfold set_data_source. cbn [format_value].
    change ("DAT:SOU " ++ name d) with ("DAT:SOU" ++ String " " (name d)).
    rewrite sendcmd_stored by reflexivity.
    eexists; split; [reflexivity|]. split; [exact Hi|reflexivity]. }
  split.
  - intros idx. destruct (Step (_TekTDS224Channel idx)) as (lk1 & S & I & R).
    exists lk1. split; [exact S|].
    rewrite (data_source_run lk1 _ I R). cbn [fst name].
    rewrite startswith_CH.
    change (drop 2 ("CH" ++ str_of_int (idx + 1))) with (str_of_int (idx + 1)).
    rewrite py_int_str_of_int_signed.
    do 2 f_equal. lia.
  - intros nm Hnm. destruct (Step (_TekTDS224DataSource nm)) as (lk1 & S & I & R).
    exists lk1. split; [exact S|].
    rewrite (data_source_run lk1 _ I R). cbn [fst name]. now rewrite Hnm.
Qed.

Lemma data_source_round_trip_witness :
  (exists lk1,
     set_data_source (inr (_TekTDS224Channel 2)) idle = (Ok tt, lk1) /\
     fst (data_source lk1) = Ok (_TekTDS224Channel 2)) /\
  (exists lk1,
     set_data_source (inr (_TekTDS224DataSource "MATH")) idle = (Ok tt, lk1) /\
     fst (data_source lk1) = Ok (_TekTDS224DataSource "MATH")).
Proof.
  split.
  - apply (proj1 (data_source_round_trip idle eq_refl) 2).
  - apply (proj2 (data_source_round_trip idle eq_refl) "MATH" eq_refl).
Defined.

Lemma Coupling_of_value_iff t c :
  Coupling_of_value t = Some c <-> t = Coupling_value c.
Proof.
  split.
  - unfold Coupling_of_value.
    destruct (String.eqb_spec t "AC") as [->|_]; [now intros [= <-]|].
    destruct (String.eqb_spec t "DC") as [->|_]; [now intros [= <-]|].
    destruct (String.eqb_spec t "GND") as [->|_]; [now intros [= <-]|].
    discriminate.
  - intros ->. apply Coupling_round_trip.
Qed.

(** X8.  The [coupling] getter answers with a member of [Coupling] exactly
    when the reply is that member's value, letter for letter ([AC], [DC]
    or [GND]); any other reply, such as [ac] or [GROUND], raises
    [ValueError]. *)
Theorem coupling_of_reply (lk : Link) (idx : Z) (reply : string) :
  inbuf lk = [] ->
  regs (device lk) ("CH" ++ str_of_int (idx + 1) ++ ":COUPL") = Some reply ->
  (forall c, fst (coupling idx lk) = Ok c <-> reply = Coupling_value c) /\
  ((forall c, reply <> Coupling_value c) ->
   fst (coupling idx lk) = Raise ValueError).
Proof.
  intros Hi Hr.
  assert (E : fst (coupling idx lk) =
              match Coupling_of_value reply with
              | Some c => Ok c
              | None => Raise ValueError
              end).
  { unfold coupling, bind.
    assert (Eq : "CH" ++ str_of_int (_idx idx) ++ ":COUPL?"
                 = ("CH" ++ str_of_int (_idx idx) ++ ":COUPL") ++ "?").
    { cbn [append]. f_equal. f_equal.
      now rewrite (app_assoc_text _ ":COUPL" "?"). }
    rewrite Eq.
    erewrite query_answered with (v := reply);
      [ | reflexivity
        | rewrite split_header_none; [reflexivity|];
          rewrite all_chars_app, coupling_header_not_blank; reflexivity
        | apply query_header_mark
        | exact Hr
        | exact Hi ].
    destruct (Coupling_of_value reply); reflexivity. }
  rewrite E. split.
  - intros c. rewrite <- Coupling_of_value_iff.
    destruct (Coupling_of_value reply); split; congruence.
  - intros Hn. destruct (Coupling_of_value reply) as [c|] eqn:C; [|reflexivity].
    apply Coupling_of_value_iff in C. now destruct (Hn c).
Qed.

Lemma coupling_of_reply_witness :
  (forall c, fst (coupling 0 (bench [("CH1:COUPL", "GROUND")] [])) = Ok c
             <-> "GROUND" = Coupling_value c) /\
  ((forall c, "GROUND" <> Coupling_value c) ->
   fst (coupling 0 (bench [("CH1:COUPL", "GROUND")] [])) = Raise ValueError).
Proof.
  apply (coupling_of_reply (bench [("CH1:COUPL", "GROUND")] []) 0 "GROUND");
    reflexivity.
Defined.

End Settings.

(** ** Measurements *)

Section Measurements.


(** X10.  A channel has a measurement attribute for exactly eleven names:
    every key of [MeasurementTypes] but [none], and nothing else. *)
Theorem measurement_attributes (idx : Z) (key : string) :
  call_measurement idx key <> None <->
  In key ["cyclic_rms"; "fall_time"; "frequency"; "maximum"; "mean";
          "minimum"; "negative_width"; "peak_peak"; "period";
          "positive_width"; "rise_time"].
Proof.
  unfold call_measurement. split.
  - destruct (lookup key _set_measurements) as [[code u]|] eqn:L;
      [intros _|intros H; now destruct H].
    apply lookup_In in L. apply (in_map fst) in L. exact L.
  - intros H. cbn [In] in H.
    repeat (destruct H as [<-|H]; [discriminate|]). destruct H.
Qed.

(** X11.  No two measurement types share a code: looking a name up in
    [MeasurementTypes] and the code back, as the listing does, gives the
    name again and nothing else. *)
Theorem type_code_round_trip (nm code : string) :
  lookup nm MeasurementTypes = Some code ->
  keys_of code MeasurementTypes = [nm].
Proof.
  intros H. apply lookup_In in H. now apply catalog_reverse.
Qed.

Lemma type_code_round_trip_witness :
  keys_of "NON" MeasurementTypes = ["none"].
Proof.
  apply (type_code_round_trip "none" "NON"). reflexivity.
Defined.








(** X14.  A channel measurement changes the instrument before it can fail:
    the three commands are written and the immediate measurement source
    and type are set, also when the call then raises [IOError] for want
    of a reply or [ValueError] for a reply that is no number. *)
Theorem measurement_failure (idx : Z) (code : string) (u : pq_unit)
        (lk : Link) :
  inbuf lk = [] ->
  exists lk1,
    snd (measurement idx code u lk) = lk1 /\
    wrote lk lk1 ["MEASU:IMM:SOU " ++ str_of_int (idx + 1);
                  "MEASU:IMM:TYP " ++ code;
                  "MEASU:IMM:VAL?"] /\
    regs (device lk1) "MEASU:IMM:SOU" = Some (str_of_int (idx + 1)) /\
    regs (device lk1) "MEASU:IMM:TYP" = Some code /\
    (regs (device lk) "MEASU:IMM:VAL" = None ->
     fst (measurement idx code u lk) = Raise IOError) /\
    (forall reply, regs (device lk) "MEASU:IMM:VAL" = Some reply ->
       py_float reply = None ->
       fst (measurement idx code u lk) = Raise ValueError).
Proof.
  intros Hi. unfold measurement, bind.
  change ("MEASU:IMM:SOU " ++ str_of_int (_idx idx))
    with ("MEASU:IMM:SOU" ++ String " " (str_of_int (_idx idx))).
  rewrite sendcmd_stored by reflexivity.
  change ("MEASU:IMM:TYP " ++ code) with ("MEASU:IMM:TYP" ++ String " " code).
  rewrite sendcmd_stored by reflexivity.
  unfold query, bind, sendcmd, read_line, react.
  cbn [String.eqb Ascii.eqb Bool.eqb split_header query_header option_map
       device inbuf sent set_reg regs].
  rewrite Hi.
  destruct (regs (device lk) "MEASU:IMM:VAL") as [reply|] eqn:R;
    cbn [app inbuf device sent].
  - destruct (py_float reply) eqn:F; cbn [convert ret raise];
      (eexists; split; [reflexivity|]);
      (split; [unfold wrote; cbn [sent]; rewrite <- !app_assoc; reflexivity|]);
      (split; [reflexivity|]); (split; [reflexivity|]);
      (split; [discriminate|]); intros r [= <-] F'; cbn [fst]; congruence.
  - eexists; split; [reflexivity|].
    split; [unfold wrote; cbn [sent]; rewrite <- !app_assoc; reflexivity|].
    split; [reflexivity|]. split; [reflexivity|].
    split; [reflexivity|]. discriminate.
Qed.

Lemma measurement_failure_witness :
  exists lk1,
    snd (measurement 0 "FREQ" pq_Hz idle) = lk1 /\
    wrote idle lk1 ["MEASU:IMM:SOU " ++ str_of_int (0 + 1);
                    "MEASU:IMM:TYP " ++ "FREQ";
                    "MEASU:IMM:VAL?"] /\
    regs (device lk1) "MEASU:IMM:SOU" = Some (str_of_int (0 + 1)) /\
    regs (device lk1) "MEASU:IMM:TYP" = Some "FREQ" /\
    (regs (device idle) "MEASU:IMM:VAL" = None ->
     fst (measurement 0 "FREQ" pq_Hz idle) = Raise IOError) /\
    (forall reply, regs (device idle) "MEASU:IMM:VAL" = Some reply ->
       py_float reply = None ->
       fst (measurement 0 "FREQ" pq_Hz idle) = Raise ValueError).
Proof.
  apply (measurement_failure 0 "FREQ" pq_Hz idle eq_refl).
Defined.

End Measurements.

(** ** Failures of a read and names of channels *)

Section ReadFailures.



(** X16.  When the reply to the width query is no integer, a binary read
    raises [ValueError] after the encoding command and the width query:
    the curve is never requested. *)
Theorem width_not_integer (lk : Link) (self : DataSource) (t : string) :
  inbuf lk = [] ->
  regs (device lk) "DATA:WIDTH" = Some t ->
  py_int t = None ->
  exists lk1,
    read_waveform_body self true lk = (Raise ValueError, lk1) /\
    wrote lk lk1 ["DAT:ENC RIB"; "DATA:WIDTH?"].
Proof.
  intros Hi Hr Ht. unfold read_waveform_body, read_raw_samples. cbn [negb].
  change "DAT:ENC RIB" with ("DAT:ENC" ++ String " " "RIB").
  eexists. split.
  - apply bind_raise. erewrite bind_ok by (apply sendcmd_stored; reflexivity).
    apply bind_raise. unfold Tek.data_width.
    erewrite bind_ok
      by (apply (query_answered "DATA:WIDTH?" "DATA:WIDTH" t);
          [reflexivity|reflexivity|reflexivity|exact Hr|exact Hi]).
    rewrite Ht. reflexivity.
  - unfold wrote. cbn [sent]. now rewrite <- app_assoc.
Qed.

Lemma width_not_integer_witness :
  exists lk1,
    read_waveform_body (_TekTDS224Channel 1) true
      (bench [("DATA:WIDTH", "2.0")] []) = (Raise ValueError, lk1) /\
    wrote (bench [("DATA:WIDTH", "2.0")] []) lk1 ["DAT:ENC RIB"; "DATA:WIDTH?"].
Proof.
  apply (width_not_integer (bench [("DATA:WIDTH", "2.0")] [])
           (_TekTDS224Channel 1) "2.0"); reflexivity.
Defined.



End ReadFailures.
